(** * The flap application of the exhaust controller (applications/app_flap.c)

    A shallow embedding of the polling thread [my_thread], of [flap_toggle]
    and of the terminal callback [flap], together with the properties the
    specification states about them.

    The thread's persistent variables and the file's static globals form a
    record; every call into the surrounding firmware (watchdog, GPIO, CAN,
    motor interface, console, sleeps) is recorded in a trace, in program
    order. *)

From Stdlib Require Import ZArith QArith Bool List String Ascii Lia.
Import ListNotations.
Local Open Scope Z_scope.

(** ** C integers *)

Definition INT_MIN : Z := -2147483648.
Definition INT_MAX : Z := 2147483647.

(** A 32-bit [int] kept as a [Z]; arithmetic results are reduced to the
    two's-complement range. *)
Definition wrap_int (z : Z) : Z := (z + 2 ^ 31) mod 2 ^ 32 - 2 ^ 31.

(** C truth value of an [int]. *)
Definition c_true (z : Z) : bool := negb (z =? 0).

(** ** Constants of the file *)

Definition FLAP_OPEN : Z := 0.
Definition FLAP_CLOSE : Z := 1.

(** ** Calls into the firmware *)

(** The three input pads: HW_ICU_GPIO/HW_ICU_PIN, HW_UART_RX_PORT/PIN and
    HW_UART_TX_PORT/PIN. *)
Inductive pad : Type := HW_ICU | HW_UART_RX | HW_UART_TX.

(** One constructor per external function the loop calls, carrying the
    arguments (and for [palReadPad] the level it returned). *)
Inductive call : Type :=
| timeout_reset
| palReadPad (p : pad) (level : bool)
| commands_printf (text : string)
| comm_can_set_duty (controller_id : Z) (duty : Q)
| mc_interface_set_duty (duty : Q)
| comm_can_set_current (controller_id : Z) (current : Q)
| comm_can_set_current_brake (controller_id : Z) (current : Q)
| chThdSleepMilliseconds (ms : Z).

(** ** State *)

Record state : Type := mkState {
  stop_now : bool;            (* static volatile bool *)
  is_running : bool;          (* static volatile bool *)
  cmd_flap_trigger : bool;    (* static volatile bool *)
  flap_direction : Z;         (* static volatile int *)
  flap_hold_cnt : Z;          (* locals of my_thread, live across iterations *)
  pio_hold_cnt : Z;
  rxpin_hold_cnt : Z;
  flap_count_ms : Z
}.

Definition set_stop_now (b : bool) (s : state) : state :=
  mkState b (is_running s) (cmd_flap_trigger s) (flap_direction s)
          (flap_hold_cnt s) (pio_hold_cnt s) (rxpin_hold_cnt s) (flap_count_ms s).
Definition set_is_running (b : bool) (s : state) : state :=
  mkState (stop_now s) b (cmd_flap_trigger s) (flap_direction s)
          (flap_hold_cnt s) (pio_hold_cnt s) (rxpin_hold_cnt s) (flap_count_ms s).
Definition set_cmd_flap_trigger (b : bool) (s : state) : state :=
  mkState (stop_now s) (is_running s) b (flap_direction s)
          (flap_hold_cnt s) (pio_hold_cnt s) (rxpin_hold_cnt s) (flap_count_ms s).
Definition set_flap_direction (d : Z) (s : state) : state :=
  mkState (stop_now s) (is_running s) (cmd_flap_trigger s) d
          (flap_hold_cnt s) (pio_hold_cnt s) (rxpin_hold_cnt s) (flap_count_ms s).
Definition set_flap_hold_cnt (c : Z) (s : state) : state :=
  mkState (stop_now s) (is_running s) (cmd_flap_trigger s) (flap_direction s)
          c (pio_hold_cnt s) (rxpin_hold_cnt s) (flap_count_ms s).
Definition set_pio_hold_cnt (c : Z) (s : state) : state :=
  mkState (stop_now s) (is_running s) (cmd_flap_trigger s) (flap_direction s)
          (flap_hold_cnt s) c (rxpin_hold_cnt s) (flap_count_ms s).
Definition set_rxpin_hold_cnt (c : Z) (s : state) : state :=
  mkState (stop_now s) (is_running s) (cmd_flap_trigger s) (flap_direction s)
          (flap_hold_cnt s) (pio_hold_cnt s) c (flap_count_ms s).
Definition set_flap_count_ms (c : Z) (s : state) : state :=
  mkState (stop_now s) (is_running s) (cmd_flap_trigger s) (flap_direction s)
          (flap_hold_cnt s) (pio_hold_cnt s) (rxpin_hold_cnt s) c.

(** What one loop iteration observes of its environment: the level of each
    pad when read, and the configured maximum duty [mcconf->l_max_duty]. *)
Record inputs : Type := mkInputs {
  pad_level : pad -> bool;
  l_max_duty : Q
}.

(** ** A state-and-trace monad for the thread's code *)

Definition thd (A : Type) : Type := state -> A * state * list call.

Definition ret {A} (a : A) : thd A := fun s => (a, s, []).

Definition bind {A B} (m : thd A) (k : A -> thd B) : thd B :=
  fun s =>
    let '(a, s1, t1) := m s in
    let '(b, s2, t2) := k a s1 in
    (b, s2, t1 ++ t2).

Definition read {A} (f : state -> A) : thd A := fun s => (f s, s, []).
Definition write (f : state -> state) : thd unit := fun s => (tt, f s, []).
Definition extern (c : call) : thd unit := fun s => (tt, s, [c]).
Definition when (b : bool) (m : thd unit) : thd unit := if b then m else ret tt.

Declare Scope thd_scope.
Delimit Scope thd_scope with thd.
Notation "x <- m ;; k" := (bind m (fun x => k))
  (at level 61, m at next level, right associativity) : thd_scope.
Notation "m ;; k" := (bind m (fun _ => k))
  (at level 61, right associativity) : thd_scope.
Local Open Scope thd_scope.

Definition result_of {A} (r : A * state * list call) : A := fst (fst r).
Definition state_of {A} (r : A * state * list call) : state := snd (fst r).
Definition trace_of {A} (r : A * state * list call) : list call := snd r.

(** ** The code *)

Definition nl : string := String (ascii_of_nat 10) EmptyString.

(** Modelled from the spec: [utils_map] is defined in the firmware's
    utils.c, which is not part of this repository's sources.  The spec calls
    the duty "linearly mapped from DriveState in {0,1} to [-maxDuty,
    +maxDuty]"; this is the linear map taking [in_min] to [out_min] and
    [in_max] to [out_max], over exact rationals (no rounding). *)
Definition utils_map (x in_min in_max out_min out_max : Q) : Q :=
  ((x - in_min) * (out_max - out_min) / (in_max - in_min) + out_min)%Q.

(** The value [flap_toggle] stores, as a function of the value it reads. *)
Definition toggled (d : Z) : Z := if c_true d then 0 else 1.

(** The word [flap_toggle] prints for a direction. *)
Definition direction_label (d : Z) : string :=
  if c_true d then "open"%string else "close"%string.

(** [void flap_toggle()] *)
Definition flap_toggle : thd unit :=
  d <- read flap_direction ;;
  (if c_true d then write (set_flap_direction 0)
   else write (set_flap_direction 1)) ;;
  d' <- read flap_direction ;;
  extern (commands_printf ("new flap direction " ++ direction_label d' ++ nl)).

(** [static void flap(int argc, const char **argv)], the terminal callback. *)
Definition flap (s : state) : state := set_cmd_flap_trigger true s.

(** Lines 156-158: the three pad reads, each negated. *)
Definition read_button (i : inputs) (p : pad) : thd bool :=
  fun s => (negb (pad_level i p), s, [palReadPad p (pad_level i p)]).

(** Lines 160-174: the three hold counters. *)
Definition update_hold_counters (flap_button pio_button rxpin_button : bool)
  : thd unit :=
  (if flap_button then
     write (fun s => set_flap_hold_cnt (wrap_int (flap_hold_cnt s + 1)) s)
   else
     c <- read flap_hold_cnt ;;
     when (0 <? c)
       (write (fun s => set_flap_hold_cnt (wrap_int (flap_hold_cnt s - 1)) s))) ;;
  (if pio_button then
     write (fun s => set_pio_hold_cnt (wrap_int (pio_hold_cnt s + 1)) s)
   else
     c <- read pio_hold_cnt ;;
     when (0 <? c)
       (write (fun s => set_pio_hold_cnt (wrap_int (pio_hold_cnt s - 1)) s))) ;;
  (if rxpin_button then
     write (fun s => set_rxpin_hold_cnt (wrap_int (rxpin_hold_cnt s + 1)) s)
   else
     c <- read rxpin_hold_cnt ;;
     when (0 <? c)
       (write (fun s => set_rxpin_hold_cnt (wrap_int (rxpin_hold_cnt s - 1)) s))).

(** Line 177: [(flap_hold_cnt > 10) || cmd_flap_trigger]. *)
Definition flap_condition (s : state) : bool :=
  (10 <? flap_hold_cnt s) || cmd_flap_trigger s.

(** Lines 177-188. *)
Definition flap_block (i : inputs) : thd unit :=
  c <- read flap_condition ;;
  when c
    (write (set_flap_hold_cnt 0) ;;
     write (set_cmd_flap_trigger false) ;;
     extern (commands_printf "flap button pressed") ;;
     flap_toggle ;;
     write (set_flap_count_ms 8000) ;;
     d <- read flap_direction ;;
     let duty := utils_map (inject_Z d) 0 1 (- l_max_duty i) (l_max_duty i) in
     extern (comm_can_set_duty 99 duty) ;;
     extern (mc_interface_set_duty duty) ;;
     extern (chThdSleepMilliseconds 500)).

(** Lines 191-196. *)
Definition rxpin_block : thd unit :=
  c <- read rxpin_hold_cnt ;;
  when (5 <? c)
    (write (set_rxpin_hold_cnt 0) ;;
     extern (commands_printf "rxpin button pressed") ;;
     extern (comm_can_set_current 99 1) ;;
     extern (chThdSleepMilliseconds 500)).

(** Lines 199-204. *)
Definition pio_block : thd unit :=
  c <- read pio_hold_cnt ;;
  when (5 <? c)
    (write (set_pio_hold_cnt 0) ;;
     extern (commands_printf "piopin button pressed") ;;
     extern (comm_can_set_current_brake 99 1) ;;
     extern (chThdSleepMilliseconds 500)).

(** Lines 207-214. *)
Definition countdown_block : thd unit :=
  let delay := 10 in
  c <- read flap_count_ms ;;
  when (0 <? c)
    (write (fun s => set_flap_count_ms (wrap_int (flap_count_ms s - delay)) s)) ;;
  c' <- read flap_count_ms ;;
  when (c' <=? 0) (extern (mc_interface_set_duty 0)) ;;
  extern (chThdSleepMilliseconds delay).

(** The body of [for(;;)] in [my_thread], lines 146-214.  The result says
    whether the loop goes on ([false]: the thread returned). *)
Definition loop_body (i : inputs) : thd bool :=
  stop <- read stop_now ;;
  if stop then
    write (set_is_running false) ;;
    ret false
  else
    extern timeout_reset ;;
    pio_button <- read_button i HW_ICU ;;
    rxpin_button <- read_button i HW_UART_RX ;;
    flap_button <- read_button i HW_UART_TX ;;
    update_hold_counters flap_button pio_button rxpin_button ;;
    flap_block i ;;
    rxpin_block ;;
    pio_block ;;
    countdown_block ;;
    ret true.

(** [for(;;)], lines 145-215, run for as many iterations as there are
    inputs, or until the body returns. *)
Fixpoint for_loop (ins : list inputs) : thd unit :=
  match ins with
  | [] => ret tt
  | i :: rest =>
      continue <- loop_body i ;;
      if continue then for_loop rest else ret tt
  end.

(** ** Running the thread against its environment *)

(** Static initialisers (lines 48-55); the thread's locals do not exist
    yet and are shown as 0. *)
Definition boot : state :=
  mkState true false false FLAP_OPEN 0 0 0 0.

(** Entry of [my_thread] up to the loop (lines 107-143): the running flag is
    raised and the locals are initialised. *)
Definition my_thread_entry (s : state) : state :=
  mkState (stop_now s) true (cmd_flap_trigger s) (flap_direction s) 0 0 0 0.

(** [my_thread], lines 102-216; the thread naming, pad set-up and
    configuration look-up before the loop touch none of the variables. *)
Definition my_thread (ins : list inputs) : thd unit :=
  write my_thread_entry ;;
  for_loop ins.

(** [app_custom_start]: clears the stop request and creates the thread. *)
Definition app_custom_start (s : state) : state :=
  my_thread_entry (set_stop_now false s).

(** What can happen next: the thread runs one loop iteration, the terminal
    invokes the [flap] command, or [app_custom_stop] raises the stop
    request. *)
Inductive action : Type :=
| Iterate (i : inputs)
| TerminalFlap
| StopRequest.

Definition perform (a : action) (s : state) : state * list call :=
  match a with
  | Iterate i =>
      if is_running s
      then let r := loop_body i s in (state_of r, trace_of r)
      else (s, [])
  | TerminalFlap => (flap s, [])
  | StopRequest => (set_stop_now true s, [])
  end.

Fixpoint run (acts : list action) (s : state) : state * list call :=
  match acts with
  | [] => (s, [])
  | a :: rest =>
      let '(s1, t1) := perform a s in
      let '(s2, t2) := run rest s1 in
      (s2, t1 ++ t2)
  end.

(** ** Observations on traces *)

Definition is_timeout_reset (c : call) : bool :=
  match c with timeout_reset => true | _ => false end.
Definition is_pad_read (c : call) : bool :=
  match c with palReadPad _ _ => true | _ => false end.
Definition is_can_duty (c : call) : bool :=
  match c with comm_can_set_duty _ _ => true | _ => false end.
Definition is_motor_duty (c : call) : bool :=
  match c with mc_interface_set_duty _ => true | _ => false end.
Definition is_duty (c : call) : bool := is_can_duty c || is_motor_duty c.

(** The two lines [flap_toggle] can print. *)
Definition is_toggle_log (c : call) : bool :=
  match c with
  | commands_printf t =>
      String.eqb t ("new flap direction open" ++ nl)
      || String.eqb t ("new flap direction close" ++ nl)
  | _ => false
  end.

Definition count (p : call -> bool) (t : list call) : nat :=
  List.length (List.filter p t).

(** The state in which the three conditions of an iteration are evaluated:
    the counters after lines 156-174 have run on the sampled pads. *)
Definition sampled (i : inputs) (s : state) : state :=
  state_of (update_hold_counters (negb (pad_level i HW_UART_TX))
                                 (negb (pad_level i HW_ICU))
                                 (negb (pad_level i HW_UART_RX)) s).

(** Whether the flap condition of line 177 holds in the iteration started
    in [s] with inputs [i]. *)
Definition flap_fires (i : inputs) (s : state) : bool :=
  flap_condition (sampled i s).

(** The countdown value after line 210. *)
Definition counted_down (c : Z) : Z := if 0 <? c then wrap_int (c - 10) else c.

(** The hold counter rule in the words of the spec: +1 when the input is
    active, -1 when inactive and positive, unchanged when inactive and 0. *)
Definition spec_hold_counter (active : bool) (c : Z) : Z :=
  if active then c + 1 else if 0 <? c then c - 1 else c.

(** No iteration of [ins], run in sequence from [s], takes the flap branch. *)
Fixpoint no_flap_event (ins : list inputs) (s : state) : bool :=
  match ins with
  | [] => true
  | i :: rest =>
      negb (flap_fires i s) && no_flap_event rest (state_of (loop_body i s))
  end.

(** The thread left alone: the state after [for_loop] has consumed [ins],
    nothing else touching the variables in between. *)
Definition iterations (ins : list inputs) (s : state) : state :=
  state_of (for_loop ins s).

(** No terminal [flap] command among the actions. *)
Definition no_terminal_flap (acts : list action) : bool :=
  forallb (fun a => match a with TerminalFlap => false | _ => true end) acts.

(** Ranges that hold whenever the loop is at the top of an iteration. *)
Record in_range (s : state) : Prop := mkInRange {
  flap_hold_range : 0 <= flap_hold_cnt s <= 10;
  pio_hold_range : 0 <= pio_hold_cnt s <= 5;
  rxpin_hold_range : 0 <= rxpin_hold_cnt s <= 5;
  flap_count_range : 0 <= flap_count_ms s <= 8000 /\ flap_count_ms s mod 10 = 0;
  flap_direction_range :
    flap_direction s = FLAP_OPEN \/ flap_direction s = FLAP_CLOSE
}.

(** Inputs used in examples: nothing pressed (pull-ups read high), and all
    three buttons held (pads read low); maximum duty 0.95. *)
Definition released : inputs := mkInputs (fun _ => true) (95 # 100).
Definition all_held : inputs := mkInputs (fun _ => false) (95 # 100).
Definition flap_held : inputs :=
  mkInputs (fun p => match p with HW_UART_TX => false | _ => true end) (95 # 100).

(** ** Further observations *)

(** The states the application can be in: the load-time state, and whatever
    a start of the application, an iteration of the thread, a terminal
    command or a stop request makes of one. *)
Inductive reachable : state -> Prop :=
| reach_boot : reachable boot
| reach_start (s : state) : reachable s -> reachable (app_custom_start s)
| reach_perform (a : action) (s : state) :
    reachable s -> reachable (fst (perform a s)).

Definition is_can_current (c : call) : bool :=
  match c with comm_can_set_current _ _ => true | _ => false end.
Definition is_can_current_brake (c : call) : bool :=
  match c with comm_can_set_current_brake _ _ => true | _ => false end.

(** The controller a CAN call addresses is 99 (other calls pass). *)
Definition addresses_peer_99 (c : call) : bool :=
  match c with
  | comm_can_set_duty id _
  | comm_can_set_current id _
  | comm_can_set_current_brake id _ => id =? 99
  | _ => true
  end.

(** Milliseconds of sleep requested in a trace. *)
Fixpoint sleep_total (t : list call) : Z :=
  match t with
  | [] => 0
  | chThdSleepMilliseconds ms :: rest => ms + sleep_total rest
  | _ :: rest => sleep_total rest
  end.

(** No stretch of the trace between two watchdog resets (or before the
    first, or after the last) requests more than [bound] ms of sleep;
    [slept] is what the current stretch has requested so far. *)
Fixpoint gaps_within (bound slept : Z) (t : list call) : bool :=
  match t with
  | [] => slept <=? bound
  | timeout_reset :: rest => (slept <=? bound) && gaps_within bound 0 rest
  | chThdSleepMilliseconds ms :: rest => gaps_within bound (slept + ms) rest
  | _ :: rest => gaps_within bound slept rest
  end.

(** The pad reads low (button pressed) in every one of the inputs. *)
Definition held (p : pad) (ins : list inputs) : bool :=
  forallb (fun i => negb (pad_level i p)) ins.

(** In how many of the inputs the pad reads low. *)
Definition presses (p : pad) (ins : list inputs) : Z :=
  Z.of_nat (List.length (filter (fun i => negb (pad_level i p)) ins)).

(** The two auxiliary buttons, handled by the sibling blocks at lines
    165-174 and 191-204: the pad each samples, the counter each keeps, and
    the CAN call each makes when its counter exceeds 5. *)
Inductive aux_button : Type := Rxpin | Pio.

Definition aux_pad (b : aux_button) : pad :=
  match b with Rxpin => HW_UART_RX | Pio => HW_ICU end.
Definition aux_counter (b : aux_button) (s : state) : Z :=
  match b with Rxpin => rxpin_hold_cnt s | Pio => pio_hold_cnt s end.
Definition aux_command (b : aux_button) : call :=
  match b with
  | Rxpin => comm_can_set_current 99 1
  | Pio => comm_can_set_current_brake 99 1
  end.
Definition is_aux_command (b : aux_button) (c : call) : bool :=
  match b with Rxpin => is_can_current c | Pio => is_can_current_brake c end.


(** * Properties *)

(** ** Arithmetic helpers *)

Lemma wrap_int_id (z : Z) : INT_MIN <= z <= INT_MAX -> wrap_int z = z.
Proof.
  unfold INT_MIN, INT_MAX, wrap_int. intros H.
  rewrite Z.mod_small; lia.
Qed.

Lemma toggled_cases (d : Z) :
  (d = 0 /\ toggled d = 1) \/ (d <> 0 /\ toggled d = 0).
Proof.
  unfold toggled, c_true. destruct (Z.eqb_spec d 0); [left | right]; auto.
Qed.

Lemma toggled_changes (d : Z) : toggled d <> d.
Proof. destruct (toggled_cases d) as [[-> ->] | [H ->]]; congruence. Qed.

Lemma toggled_binary (d : Z) : toggled d = 0 \/ toggled d = 1.
Proof. destruct (toggled_cases d) as [[_ ->] | [_ ->]]; auto. Qed.

Lemma utils_map_at_in_max (lo hi : Q) : (utils_map 1 0 1 lo hi == hi)%Q.
Proof. unfold utils_map. field. Qed.

Lemma utils_map_at_in_min (lo hi : Q) : (utils_map 0 0 1 lo hi == lo)%Q.
Proof. unfold utils_map. field. Qed.

#[local] Arguments wrap_int : simpl never.
#[local] Arguments utils_map : simpl never.
#[local] Arguments toggled : simpl never.
#[local] Arguments direction_label : simpl never.
#[local] Arguments counted_down : simpl never.

(** ** What each block does *)

Lemma flap_toggle_run (s : state) :
  flap_toggle s =
  (tt, set_flap_direction (toggled (flap_direction s)) s,
   [commands_printf
      ("new flap direction " ++ direction_label (toggled (flap_direction s)) ++ nl)]).
Proof.
  unfold flap_toggle, bind, read, write, extern, toggled.
  destruct (c_true (flap_direction s)); reflexivity.
Qed.

Lemma update_hold_counters_run (fb pb rb : bool) (s : state) :
  update_hold_counters fb pb rb s =
  (tt,
   mkState (stop_now s) (is_running s) (cmd_flap_trigger s) (flap_direction s)
     (if fb then wrap_int (flap_hold_cnt s + 1)
      else if 0 <? flap_hold_cnt s then wrap_int (flap_hold_cnt s - 1)
           else flap_hold_cnt s)
     (if pb then wrap_int (pio_hold_cnt s + 1)
      else if 0 <? pio_hold_cnt s then wrap_int (pio_hold_cnt s - 1)
           else pio_hold_cnt s)
     (if rb then wrap_int (rxpin_hold_cnt s + 1)
      else if 0 <? rxpin_hold_cnt s then wrap_int (rxpin_hold_cnt s - 1)
           else rxpin_hold_cnt s)
     (flap_count_ms s),
   []).
Proof.
  destruct s as [sn ir tr d fh ph rh ms].
  unfold update_hold_counters, bind, read, write, when, ret; cbn.
  destruct fb, pb, rb; cbn;
    repeat match goal with
           | |- context [0 <? ?c] => destruct (0 <? c); cbn
           end; reflexivity.
Qed.

Lemma update_hold_counters_trace (fb pb rb : bool) (s : state) :
  trace_of (update_hold_counters fb pb rb s) = [].
Proof. rewrite update_hold_counters_run. reflexivity. Qed.

Lemma flap_block_run (i : inputs) (s : state) :
  flap_block i s =
  if flap_condition s then
    let d := toggled (flap_direction s) in
    let duty := utils_map (inject_Z d) 0 1 (- l_max_duty i) (l_max_duty i) in
    (tt,
     mkState (stop_now s) (is_running s) false d
       0 (pio_hold_cnt s) (rxpin_hold_cnt s) 8000,
     [commands_printf "flap button pressed";
      commands_printf ("new flap direction " ++ direction_label d ++ nl);
      comm_can_set_duty 99 duty;
      mc_interface_set_duty duty;
      chThdSleepMilliseconds 500])
  else (tt, s, []).
Proof.
  unfold flap_block, bind at 1, read at 1, when.
  destruct (flap_condition s); [| reflexivity].
  unfold bind, write, extern, read. rewrite flap_toggle_run.
  destruct s; reflexivity.
Qed.

Lemma rxpin_block_run (s : state) :
  rxpin_block s =
  if 5 <? rxpin_hold_cnt s then
    (tt, set_rxpin_hold_cnt 0 s,
     [commands_printf "rxpin button pressed";
      comm_can_set_current 99 1;
      chThdSleepMilliseconds 500])
  else (tt, s, []).
Proof.
  unfold rxpin_block, bind, read, when, write, extern, ret.
  destruct (5 <? rxpin_hold_cnt s); reflexivity.
Qed.

Lemma pio_block_run (s : state) :
  pio_block s =
  if 5 <? pio_hold_cnt s then
    (tt, set_pio_hold_cnt 0 s,
     [commands_printf "piopin button pressed";
      comm_can_set_current_brake 99 1;
      chThdSleepMilliseconds 500])
  else (tt, s, []).
Proof.
  unfold pio_block, bind, read, when, write, extern, ret.
  destruct (5 <? pio_hold_cnt s); reflexivity.
Qed.

Lemma countdown_block_run (s : state) :
  countdown_block s =
  let c := counted_down (flap_count_ms s) in
  (tt, set_flap_count_ms c s,
   (if c <=? 0 then [mc_interface_set_duty 0] else [])
   ++ [chThdSleepMilliseconds 10]).
Proof.
  destruct s as [sn ir tr d fh ph rh ms].
  unfold countdown_block, counted_down, bind, read, when, write, extern, ret; cbn.
  destruct (0 <? ms); cbn.
  - destruct (wrap_int (ms - 10) <=? 0); reflexivity.
  - destruct (ms <=? 0); reflexivity.
Qed.

(** ** The loop body as a sequence of its blocks *)

Lemma loop_body_stop (i : inputs) (s : state) :
  stop_now s = true ->
  loop_body i s = (false, set_is_running false s, []).
Proof.
  intros H. unfold loop_body, bind, read, write, ret. rewrite H. reflexivity.
Qed.

Lemma bind_run {A B} (m : thd A) (k : A -> thd B) (s : state) :
  bind m k s =
  (result_of (k (result_of (m s)) (state_of (m s))),
   state_of (k (result_of (m s)) (state_of (m s))),
   trace_of (m s) ++ trace_of (k (result_of (m s)) (state_of (m s)))).
Proof.
  unfold bind. destruct (m s) as [[a s1] t1]. cbn.
  destruct (k a s1) as [[b s2] t2]. reflexivity.
Qed.

Lemma loop_body_run (i : inputs) (s : state) :
  stop_now s = false ->
  loop_body i s =
  let r2 := flap_block i (sampled i s) in
  let r3 := rxpin_block (state_of r2) in
  let r4 := pio_block (state_of r3) in
  let r5 := countdown_block (state_of r4) in
  (true, state_of r5,
   [timeout_reset;
    palReadPad HW_ICU (pad_level i HW_ICU);
    palReadPad HW_UART_RX (pad_level i HW_UART_RX);
    palReadPad HW_UART_TX (pad_level i HW_UART_TX)]
   ++ trace_of r2 ++ trace_of r3 ++ trace_of r4 ++ trace_of r5).
Proof.
  intros H. unfold loop_body, sampled.
  unfold bind at 1, read at 1. rewrite H.
  repeat (rewrite bind_run; cbv beta;
          cbn [extern read_button ret result_of state_of trace_of fst snd]).
  rewrite app_nil_r, update_hold_counters_trace.
  reflexivity.
Qed.

(** Fields of the state in which the conditions are evaluated. *)
Lemma sampled_fields (i : inputs) (s : state) :
  sampled i s =
  mkState (stop_now s) (is_running s) (cmd_flap_trigger s) (flap_direction s)
    (if negb (pad_level i HW_UART_TX) then wrap_int (flap_hold_cnt s + 1)
     else if 0 <? flap_hold_cnt s then wrap_int (flap_hold_cnt s - 1)
          else flap_hold_cnt s)
    (if negb (pad_level i HW_ICU) then wrap_int (pio_hold_cnt s + 1)
     else if 0 <? pio_hold_cnt s then wrap_int (pio_hold_cnt s - 1)
          else pio_hold_cnt s)
    (if negb (pad_level i HW_UART_RX) then wrap_int (rxpin_hold_cnt s + 1)
     else if 0 <? rxpin_hold_cnt s then wrap_int (rxpin_hold_cnt s - 1)
          else rxpin_hold_cnt s)
    (flap_count_ms s).
Proof. unfold sampled. rewrite update_hold_counters_run. reflexivity. Qed.

(** The state and trace of a whole iteration, with every block spelled
    out; [c1] is the state the conditions are evaluated in. *)
Lemma loop_body_explicit (i : inputs) (s : state) :
  stop_now s = false ->
  let c1 := sampled i s in
  let fire := flap_condition c1 in
  let d := if fire then toggled (flap_direction s) else flap_direction s in
  let duty := utils_map (inject_Z d) 0 1 (- l_max_duty i) (l_max_duty i) in
  let ms := counted_down (if fire then 8000 else flap_count_ms s) in
  loop_body i s =
  (true,
   mkState false (is_running s)
     (if fire then false else cmd_flap_trigger s)
     d
     (if fire then 0 else flap_hold_cnt c1)
     (if 5 <? pio_hold_cnt c1 then 0 else pio_hold_cnt c1)
     (if 5 <? rxpin_hold_cnt c1 then 0 else rxpin_hold_cnt c1)
     ms,
   [timeout_reset;
    palReadPad HW_ICU (pad_level i HW_ICU);
    palReadPad HW_UART_RX (pad_level i HW_UART_RX);
    palReadPad HW_UART_TX (pad_level i HW_UART_TX)]
   ++ (if fire then
         [commands_printf "flap button pressed";
          commands_printf ("new flap direction " ++ direction_label d ++ nl);
          comm_can_set_duty 99 duty;
          mc_interface_set_duty duty;
          chThdSleepMilliseconds 500]
       else [])
   ++ (if 5 <? rxpin_hold_cnt c1 then
         [commands_printf "rxpin button pressed";
          comm_can_set_current 99 1;
          chThdSleepMilliseconds 500]
       else [])
   ++ (if 5 <? pio_hold_cnt c1 then
         [commands_printf "piopin button pressed";
          comm_can_set_current_brake 99 1;
          chThdSleepMilliseconds 500]
       else [])
   ++ (if ms <=? 0 then [mc_interface_set_duty 0] else [])
   ++ [chThdSleepMilliseconds 10]).
Proof.
  intros H c1 fire d duty ms. rewrite loop_body_run by exact H. cbv zeta.
  fold c1. rewrite flap_block_run. fold fire.
  assert (Hs : stop_now c1 = false) by (unfold c1; rewrite sampled_fields; exact H).
  assert (Hr : is_running c1 = is_running s) by (unfold c1; rewrite sampled_fields; reflexivity).
  assert (Ht : cmd_flap_trigger c1 = cmd_flap_trigger s) by (unfold c1; rewrite sampled_fields; reflexivity).
  assert (Hd : flap_direction c1 = flap_direction s) by (unfold c1; rewrite sampled_fields; reflexivity).
  assert (Hm : flap_count_ms c1 = flap_count_ms s) by (unfold c1; rewrite sampled_fields; reflexivity).
  subst d duty ms. clearbody fire c1.
  destruct c1 as [sn ir tr dd fh ph rh cm]; cbn in Hs, Hr, Ht, Hd, Hm; subst.
  rewrite !countdown_block_run, !pio_block_run, !rxpin_block_run.
  destruct fire; cbn; destruct (5 <? rh); cbn; destruct (5 <? ph); cbn;
    reflexivity.
Qed.

(** ** The thread on small inputs *)

(** Started with nothing pressed, the first iteration pings the watchdog,
    reads the pads and, the countdown being 0, switches the motor off. *)
Example my_thread_first_iteration :
  my_thread [released] (set_stop_now false boot)
  = (tt, app_custom_start boot,
     [timeout_reset;
      palReadPad HW_ICU true; palReadPad HW_UART_RX true;
      palReadPad HW_UART_TX true;
      mc_interface_set_duty 0;
      chThdSleepMilliseconds 10]).
Proof. reflexivity. Qed.

(** With the stop request standing, the thread returns from its first
    iteration, whatever inputs are left. *)
Example my_thread_returns_on_stop :
  my_thread [all_held; all_held] boot
  = (tt, mkState true false false FLAP_OPEN 0 0 0 0, []).
Proof. reflexivity. Qed.

(** Holding the flap button: the eleventh iteration toggles. *)
Example eleventh_iteration_toggles :
  let s10 := iterations (repeat flap_held 10) (app_custom_start boot) in
  flap_hold_cnt s10 = 10
  /\ flap_direction s10 = FLAP_OPEN
  /\ flap_direction (iterations [flap_held] s10) = FLAP_CLOSE
  /\ flap_hold_cnt (iterations [flap_held] s10) = 0
  /\ flap_count_ms (iterations [flap_held] s10) = 7990.
Proof. cbv zeta. repeat split; reflexivity. Qed.

(** ** Ranges of the variables *)

Lemma counted_down_multiple (c : Z) :
  0 <= c <= 8000 -> c mod 10 = 0 ->
  counted_down c = Z.max 0 (c - 10) /\
  0 <= counted_down c <= 8000 /\ counted_down c mod 10 = 0.
Proof.
  intros Hc Hm. unfold counted_down.
  destruct (Z.ltb_spec 0 c) as [Hp | Hz].
  - assert (10 <= c).
    { rewrite (Z.div_mod c 10) in Hp |- * by lia. rewrite Hm in *. lia. }
    rewrite wrap_int_id by (unfold INT_MIN, INT_MAX; lia).
    repeat split; try lia.
    replace (c - 10) with (c + (-1) * 10) by lia.
    rewrite Z.mod_add by lia. exact Hm.
  - assert (c = 0) by lia. subst c. repeat split; try lia; reflexivity.
Qed.

Lemma hold_counter_in_range (b : bool) (c hi : Z) :
  0 <= c <= hi -> hi <= 100 ->
  (if b then wrap_int (c + 1)
   else if 0 <? c then wrap_int (c - 1) else c) = spec_hold_counter b c
  /\ 0 <= spec_hold_counter b c <= hi + 1.
Proof.
  intros Hc Hhi. unfold spec_hold_counter.
  destruct b; [| destruct (Z.ltb_spec 0 c)];
    rewrite ?wrap_int_id by (unfold INT_MIN, INT_MAX; lia); lia.
Qed.

Lemma sampled_in_range (i : inputs) (s : state) :
  in_range s ->
  flap_hold_cnt (sampled i s)
  = spec_hold_counter (negb (pad_level i HW_UART_TX)) (flap_hold_cnt s)
  /\ pio_hold_cnt (sampled i s)
     = spec_hold_counter (negb (pad_level i HW_ICU)) (pio_hold_cnt s)
  /\ rxpin_hold_cnt (sampled i s)
     = spec_hold_counter (negb (pad_level i HW_UART_RX)) (rxpin_hold_cnt s).
Proof.
  intros [Hf Hp Hr _ _]. rewrite sampled_fields. cbn.
  repeat split; eapply hold_counter_in_range; eauto; lia.
Qed.

Lemma in_range_start : in_range (app_custom_start boot).
Proof. split; cbn; try lia; auto. Qed.

Lemma loop_body_in_range (i : inputs) (s : state) :
  in_range s -> in_range (state_of (loop_body i s)).
Proof.
  intros Hs. destruct (stop_now s) eqn:Hstop.
  - rewrite loop_body_stop by exact Hstop. destruct Hs. split; assumption.
  - destruct (sampled_in_range i s Hs) as (Ef & Ep & Er).
    pose proof (hold_counter_in_range (negb (pad_level i HW_UART_TX)) _ 10
                  (flap_hold_range s Hs) ltac:(lia)) as [_ Bf].
    pose proof (hold_counter_in_range (negb (pad_level i HW_ICU)) _ 5
                  (pio_hold_range s Hs) ltac:(lia)) as [_ Bp].
    pose proof (hold_counter_in_range (negb (pad_level i HW_UART_RX)) _ 5
                  (rxpin_hold_range s Hs) ltac:(lia)) as [_ Br].
    rewrite <- Ef in Bf. rewrite <- Ep in Bp. rewrite <- Er in Br.
    rewrite loop_body_explicit by exact Hstop. cbv zeta.
    unfold flap_condition.
    set (c1 := sampled i s) in *. cbn [state_of fst snd].
    destruct Hs as [_ _ _ [Hc Hm] Hd].
    split; cbn.
    + destruct (Z.ltb_spec 10 (flap_hold_cnt c1)); cbn; [lia |].
      destruct (cmd_flap_trigger c1); lia.
    + destruct (Z.ltb_spec 5 (pio_hold_cnt c1)); lia.
    + destruct (Z.ltb_spec 5 (rxpin_hold_cnt c1)); lia.
    + destruct ((10 <? flap_hold_cnt c1) || cmd_flap_trigger c1).
      * destruct (counted_down_multiple 8000) as (_ & ? & ?);
          [lia | reflexivity | auto].
      * destruct (counted_down_multiple (flap_count_ms s)) as (_ & ? & ?); auto.
    + destruct ((10 <? flap_hold_cnt c1) || cmd_flap_trigger c1); [| exact Hd].
      unfold FLAP_OPEN, FLAP_CLOSE.
      destruct (toggled_binary (flap_direction s)); auto.
Qed.

Lemma perform_in_range (a : action) (s : state) :
  in_range s -> in_range (fst (perform a s)).
Proof.
  intros Hs. destruct a as [i | |]; cbn.
  - destruct (is_running s); cbn; [apply loop_body_in_range |]; exact Hs.
  - destruct Hs. split; assumption.
  - destruct Hs. split; assumption.
Qed.

Lemma run_in_range (acts : list action) (s : state) :
  in_range s -> in_range (fst (run acts s)).
Proof.
  revert s. induction acts as [| a rest IH]; intros s Hs; cbn; [exact Hs |].
  pose proof (perform_in_range a s Hs) as H1.
  destruct (perform a s) as [s1 t1]. cbn in H1.
  specialize (IH s1 H1). destruct (run rest s1) as [s2 t2]. exact IH.
Qed.

(** ** Counting calls in the trace of an iteration *)

Lemma filter_can_duty (t : list call) :
  filter is_can_duty t = filter is_can_duty (filter is_duty t).
Proof.
  induction t as [| c t IH]; [reflexivity |].
  destruct c; cbn; rewrite <- ?IH; reflexivity.
Qed.

Lemma filter_motor_duty (t : list call) :
  filter is_motor_duty t = filter is_motor_duty (filter is_duty t).
Proof.
  induction t as [| c t IH]; [reflexivity |].
  destruct c; cbn; rewrite <- ?IH; reflexivity.
Qed.

Lemma toggle_log_recognised (d : Z) :
  is_toggle_log
    (commands_printf ("new flap direction " ++ direction_label d ++ nl)) = true.
Proof. unfold direction_label. destruct (c_true d); reflexivity. Qed.

Lemma counted_down_armed : counted_down 8000 = 7990.
Proof. reflexivity. Qed.

(** The trace of an iteration that takes the flap branch, restricted to the
    calls the flap branch alone can make. *)
Lemma firing_iteration (i : inputs) (s : state) :
  stop_now s = false -> flap_fires i s = true ->
  let r := loop_body i s in
  let d := toggled (flap_direction s) in
  let duty := utils_map (inject_Z d) 0 1 (- l_max_duty i) (l_max_duty i) in
  state_of r =
    mkState false (is_running s) false d 0
      (if 5 <? pio_hold_cnt (sampled i s) then 0 else pio_hold_cnt (sampled i s))
      (if 5 <? rxpin_hold_cnt (sampled i s) then 0
       else rxpin_hold_cnt (sampled i s))
      7990
  /\ filter is_duty (trace_of r)
     = [comm_can_set_duty 99 duty; mc_interface_set_duty duty]
  /\ filter is_toggle_log (trace_of r)
     = [commands_printf ("new flap direction " ++ direction_label d ++ nl)].
Proof.
  intros Hstop Hfire. unfold flap_fires in Hfire.
  cbv zeta. rewrite loop_body_explicit by exact Hstop. cbv zeta.
  rewrite Hfire. rewrite counted_down_armed.
  cbn [state_of trace_of fst snd]. split; [reflexivity |].
  pose proof (toggle_log_recognised (toggled (flap_direction s))) as Hlog.
  split.
  - destruct (5 <? rxpin_hold_cnt (sampled i s));
      destruct (5 <? pio_hold_cnt (sampled i s)); reflexivity.
  - destruct (5 <? rxpin_hold_cnt (sampled i s));
      destruct (5 <? pio_hold_cnt (sampled i s));
      cbn [app filter is_toggle_log String.eqb Ascii.eqb Bool.eqb orb
           "++"%string] in *; rewrite Hlog; reflexivity.
Qed.

(** The trace of an iteration that does not take the flap branch holds no
    toggle line and no CAN duty command, and leaves the direction alone. *)
Lemma quiet_iteration (i : inputs) (s : state) :
  stop_now s = false -> flap_fires i s = false ->
  let r := loop_body i s in
  flap_direction (state_of r) = flap_direction s
  /\ cmd_flap_trigger (state_of r) = cmd_flap_trigger s
  /\ stop_now (state_of r) = false
  /\ flap_count_ms (state_of r) = counted_down (flap_count_ms s)
  /\ filter is_toggle_log (trace_of r) = []
  /\ filter is_can_duty (trace_of r) = []
  /\ filter is_motor_duty (trace_of r)
     = if counted_down (flap_count_ms s) <=? 0
       then [mc_interface_set_duty 0] else [].
Proof.
  intros Hstop Hquiet. unfold flap_fires in Hquiet.
  cbv zeta. rewrite loop_body_explicit by exact Hstop. cbv zeta.
  rewrite Hquiet. cbn [state_of trace_of fst snd flap_direction
    cmd_flap_trigger stop_now flap_count_ms].
  repeat split;
    destruct (5 <? rxpin_hold_cnt (sampled i s));
    destruct (5 <? pio_hold_cnt (sampled i s));
    destruct (counted_down (flap_count_ms s) <=? 0); reflexivity.
Qed.

(** ** The toggle *)

(** C8.  From either direction value, one call of [flap_toggle] moves
    [flap_direction] to the other value, and a second call moves it back:
    two calls restore the state they started from. *)
Theorem flap_toggle_involution (s : state) :
  flap_direction s = FLAP_OPEN \/ flap_direction s = FLAP_CLOSE ->
  let s1 := state_of (flap_toggle s) in
  let s2 := state_of (flap_toggle s1) in
  flap_direction s1 <> flap_direction s
  /\ (flap_direction s1 = FLAP_OPEN \/ flap_direction s1 = FLAP_CLOSE)
  /\ flap_direction s1 = 1 - flap_direction s
  /\ flap_direction s2 = flap_direction s
  /\ s2 = s.
Proof.
  intros Hd. cbv zeta. rewrite !flap_toggle_run.
  destruct s as [sn ir tr d fh ph rh ms].
  cbn [state_of fst snd flap_direction set_flap_direction stop_now is_running
       cmd_flap_trigger flap_hold_cnt pio_hold_cnt rxpin_hold_cnt
       flap_count_ms] in *.
  unfold FLAP_OPEN, FLAP_CLOSE in *.
  destruct Hd as [-> | ->]; cbv [toggled c_true Z.eqb negb];
    repeat split; auto; lia.
Qed.

Lemma flap_toggle_involution_witness :
  state_of (flap_toggle (state_of (flap_toggle boot))) = boot.
Proof.
  apply (flap_toggle_involution boot). left. reflexivity.
Defined.

(** C9.  The line [flap_toggle] prints says "open" exactly when the
    direction it has just stored is 1, the value named FLAP_CLOSE, and
    "close" exactly when it is 0, the value named FLAP_OPEN. *)
Theorem flap_toggle_label_inverted (s : state) :
  let r := flap_toggle s in
  let d' := flap_direction (state_of r) in
  (d' = FLAP_CLOSE \/ d' = FLAP_OPEN)
  /\ (trace_of r = [commands_printf ("new flap direction open" ++ nl)]
      <-> d' = FLAP_CLOSE)
  /\ (trace_of r = [commands_printf ("new flap direction close" ++ nl)]
      <-> d' = FLAP_OPEN)
  /\ FLAP_CLOSE = 1 /\ FLAP_OPEN = 0.
Proof.
  cbv zeta. rewrite flap_toggle_run.
  cbn [state_of trace_of fst snd flap_direction set_flap_direction].
  unfold FLAP_OPEN, FLAP_CLOSE.
  destruct (toggled_cases (flap_direction s)) as [[_ ->] | [_ ->]];
    cbv [direction_label c_true Z.eqb negb];
    repeat split; auto; intros H; try reflexivity; try discriminate H.
Qed.

(** ** The flap event *)

(** C1.  In an iteration that takes the flap branch, the duty is the
    image of the new direction under the linear map sending 0 to
    [-l_max_duty] and 1 to [+l_max_duty]: direction 1 gives [+M], direction
    0 gives [-M].  The iteration makes exactly two duty calls, the CAN
    command to controller 99 and the local motor command, in that order and
    with that one value.  Duty arithmetic is over exact rationals. *)
Theorem flap_event_duty (i : inputs) (s : state) :
  stop_now s = false ->
  flap_fires i s = true ->
  let r := loop_body i s in
  let d := flap_direction (state_of r) in
  let duty := utils_map (inject_Z d) 0 1 (- l_max_duty i) (l_max_duty i) in
  filter is_duty (trace_of r)
  = [comm_can_set_duty 99 duty; mc_interface_set_duty duty]
  /\ (d = 1 \/ d = 0)
  /\ (d = 1 -> (duty == l_max_duty i)%Q)
  /\ (d = 0 -> (duty == - l_max_duty i)%Q).
Proof.
  intros Hstop Hfire. cbv zeta.
  destruct (firing_iteration i s Hstop Hfire) as (Hst & Hduty & _).
  rewrite Hst. cbn [flap_direction]. split; [exact Hduty |].
  split; [destruct (toggled_binary (flap_direction s)); auto |].
  split; intros ->.
  - apply utils_map_at_in_max.
  - apply utils_map_at_in_min.
Qed.

Lemma flap_event_duty_witness :
  filter is_duty (trace_of (loop_body released (flap (app_custom_start boot))))
  = [comm_can_set_duty 99 (utils_map 1 0 1 (- (95 # 100)) (95 # 100));
     mc_interface_set_duty (utils_map 1 0 1 (- (95 # 100)) (95 # 100))].
Proof.
  apply (flap_event_duty released (flap (app_custom_start boot)));
    reflexivity.
Defined.

(** C2.  When the flap counter stands at 10 and the flap input is
    active, the iteration takes the counter to 11, toggles the direction
    once (one toggle line is printed and the direction is the toggled one),
    makes exactly one CAN duty call and exactly one local motor duty call,
    and leaves the counter at 0. *)
Theorem threshold_crossing_single_toggle (i : inputs) (s : state) :
  stop_now s = false ->
  flap_hold_cnt s = 10 ->
  pad_level i HW_UART_TX = false ->
  let r := loop_body i s in
  flap_hold_cnt (sampled i s) = 11
  /\ flap_direction (state_of r) = toggled (flap_direction s)
  /\ flap_direction (state_of r) <> flap_direction s
  /\ count is_toggle_log (trace_of r) = 1%nat
  /\ count is_can_duty (trace_of r) = 1%nat
  /\ count is_motor_duty (trace_of r) = 1%nat
  /\ flap_hold_cnt (state_of r) = 0.
Proof.
  intros Hstop Hcnt Hpad. cbv zeta.
  assert (Hc1 : flap_hold_cnt (sampled i s) = 11).
  { rewrite sampled_fields. cbn [flap_hold_cnt]. rewrite Hpad, Hcnt. reflexivity. }
  assert (Hfire : flap_fires i s = true).
  { unfold flap_fires, flap_condition. rewrite Hc1. reflexivity. }
  destruct (firing_iteration i s Hstop Hfire) as (Hst & Hduty & Hlog).
  unfold count. rewrite Hlog.
  rewrite filter_can_duty, filter_motor_duty, Hduty, Hst.
  cbn [flap_direction flap_hold_cnt].
  repeat split; auto using toggled_changes.
Qed.

Lemma threshold_crossing_single_toggle_witness :
  count is_toggle_log
    (trace_of (loop_body flap_held
       (fst (run (repeat (Iterate flap_held) 10) (app_custom_start boot)))))
  = 1%nat.
Proof.
  apply (threshold_crossing_single_toggle flap_held
           (fst (run (repeat (Iterate flap_held) 10) (app_custom_start boot))));
    reflexivity.
Defined.

(** ** The external trigger *)

Lemma sampled_after_reset (i : inputs) (s : state) :
  flap_hold_cnt s = 0 -> (10 <? flap_hold_cnt (sampled i s)) = false.
Proof.
  intros H. rewrite sampled_fields. cbn [flap_hold_cnt]. rewrite H.
  destruct (negb (pad_level i HW_UART_TX)); reflexivity.
Qed.

Lemma sampled_trigger (i : inputs) (s : state) :
  cmd_flap_trigger (sampled i s) = cmd_flap_trigger s.
Proof. rewrite sampled_fields. reflexivity. Qed.

(** C3.  With [cmd_flap_trigger] set, the iteration takes the flap
    branch whatever the flap counter holds (0 included): the direction is
    toggled once and the flag is cleared.  The iteration right after it,
    the flag not having been set again, does not take the flap branch: no
    toggle line, no CAN duty command, direction unchanged. *)
Theorem external_trigger_consumed (i1 i2 : inputs) (s : state) :
  stop_now s = false ->
  cmd_flap_trigger s = true ->
  let r1 := loop_body i1 s in
  let s1 := state_of r1 in
  let r2 := loop_body i2 s1 in
  flap_fires i1 s = true
  /\ flap_direction s1 = toggled (flap_direction s)
  /\ count is_toggle_log (trace_of r1) = 1%nat
  /\ cmd_flap_trigger s1 = false
  /\ flap_hold_cnt s1 = 0
  /\ flap_fires i2 s1 = false
  /\ flap_direction (state_of r2) = flap_direction s1
  /\ cmd_flap_trigger (state_of r2) = false
  /\ count is_toggle_log (trace_of r2) = 0%nat
  /\ count is_can_duty (trace_of r2) = 0%nat.
Proof.
  intros Hstop Htrig. cbv zeta.
  assert (Hfire : flap_fires i1 s = true).
  { unfold flap_fires, flap_condition. rewrite sampled_trigger, Htrig.
    apply orb_true_r. }
  destruct (firing_iteration i1 s Hstop Hfire) as (Hst & _ & Hlog).
  set (s1 := state_of (loop_body i1 s)) in *.
  assert (Hstop1 : stop_now s1 = false) by (rewrite Hst; reflexivity).
  assert (Htrig1 : cmd_flap_trigger s1 = false) by (rewrite Hst; reflexivity).
  assert (Hcnt1 : flap_hold_cnt s1 = 0) by (rewrite Hst; reflexivity).
  assert (Hquiet : flap_fires i2 s1 = false).
  { unfold flap_fires, flap_condition.
    rewrite sampled_trigger, Htrig1, (sampled_after_reset i2 s1 Hcnt1).
    reflexivity. }
  destruct (quiet_iteration i2 s1 Hstop1 Hquiet)
    as (Hdir & Htr & _ & _ & Hlog2 & Hcan2 & _).
  unfold count. rewrite Hlog, Hlog2, Hcan2, Htr, Hdir.
  repeat split; auto. rewrite Hst; reflexivity.
Qed.

Lemma external_trigger_consumed_witness :
  flap_hold_cnt (app_custom_start boot) = 0
  /\ flap_fires released (flap (app_custom_start boot)) = true
  /\ count is_toggle_log
       (trace_of (loop_body released
          (state_of (loop_body released (flap (app_custom_start boot))))))
     = 0%nat.
Proof.
  pose proof (external_trigger_consumed released released
                (flap (app_custom_start boot)) eq_refl eq_refl) as H.
  cbv zeta in H. split; [reflexivity |]. split; apply H.
Defined.

Lemma loop_body_keeps_trigger_clear (i : inputs) (s : state) :
  cmd_flap_trigger s = false ->
  cmd_flap_trigger (state_of (loop_body i s)) = false.
Proof.
  intros Htrig. destruct (stop_now s) eqn:Hstop.
  - rewrite loop_body_stop by exact Hstop. exact Htrig.
  - rewrite loop_body_explicit by exact Hstop. cbv zeta.
    cbn [state_of fst snd cmd_flap_trigger].
    destruct (flap_condition (sampled i s)); [reflexivity | exact Htrig].
Qed.

Lemma run_keeps_trigger_clear (acts : list action) (s : state) :
  no_terminal_flap acts = true ->
  cmd_flap_trigger s = false ->
  cmd_flap_trigger (fst (run acts s)) = false.
Proof.
  revert s. induction acts as [| a rest IH]; intros s Hno Htrig; [exact Htrig |].
  cbn [no_terminal_flap forallb] in Hno. apply andb_prop in Hno as [Ha Hrest].
  assert (H1 : cmd_flap_trigger (fst (perform a s)) = false).
  { destruct a as [i | |]; [| discriminate Ha | exact Htrig].
    cbn. destruct (is_running s); cbn;
      [apply loop_body_keeps_trigger_clear |]; exact Htrig. }
  cbn [run]. destruct (perform a s) as [s1 t1]. cbn [fst] in H1.
  specialize (IH s1 Hrest H1). destruct (run rest s1) as [s2 t2]. exact IH.
Qed.

Lemma loop_body_ignores_trigger_when_counter_fires (i : inputs) (s : state) :
  stop_now s = false ->
  (10 <? flap_hold_cnt (sampled i s)) = true ->
  loop_body i s = loop_body i (set_cmd_flap_trigger false s).
Proof.
  intros Hstop Hcnt.
  rewrite (loop_body_explicit i s) by exact Hstop.
  rewrite (loop_body_explicit i (set_cmd_flap_trigger false s)) by exact Hstop.
  cbv zeta. unfold flap_condition.
  assert (Hsame : flap_hold_cnt (sampled i (set_cmd_flap_trigger false s))
                  = flap_hold_cnt (sampled i s)
                  /\ pio_hold_cnt (sampled i (set_cmd_flap_trigger false s))
                     = pio_hold_cnt (sampled i s)
                  /\ rxpin_hold_cnt (sampled i (set_cmd_flap_trigger false s))
                     = rxpin_hold_cnt (sampled i s)).
  { rewrite !sampled_fields. repeat split. }
  destruct Hsame as (-> & -> & ->). rewrite Hcnt. reflexivity.
Qed.

(** C10.  When the counter condition [flap_hold_cnt > 10] holds in an
    iteration that also finds [cmd_flap_trigger] set, the iteration does
    exactly what it would have done with the flag clear: one toggle, and the
    flag is clear afterwards.  As long as the terminal command is not
    invoked again the flag stays clear, so every later toggle is due to the
    counter alone. *)
Theorem coinciding_trigger_absorbed
  (i : inputs) (s : state) (later : list action) (i' : inputs) :
  stop_now s = false ->
  cmd_flap_trigger s = true ->
  (10 <? flap_hold_cnt (sampled i s)) = true ->
  no_terminal_flap later = true ->
  let r := loop_body i s in
  let s' := fst (run later (state_of r)) in
  r = loop_body i (set_cmd_flap_trigger false s)
  /\ count is_toggle_log (trace_of r) = 1%nat
  /\ cmd_flap_trigger (state_of r) = false
  /\ cmd_flap_trigger s' = false
  /\ (flap_fires i' s' = true -> (10 <? flap_hold_cnt (sampled i' s')) = true).
Proof.
  intros Hstop Htrig Hcnt Hlater. cbv zeta.
  assert (Hfire : flap_fires i s = true).
  { unfold flap_fires, flap_condition. rewrite Hcnt. reflexivity. }
  destruct (firing_iteration i s Hstop Hfire) as (Hst & _ & Hlog).
  assert (Hclear : cmd_flap_trigger (state_of (loop_body i s)) = false)
    by (rewrite Hst; reflexivity).
  pose proof (run_keeps_trigger_clear later _ Hlater Hclear) as Hstay.
  split; [apply loop_body_ignores_trigger_when_counter_fires; assumption |].
  split; [unfold count; rewrite Hlog; reflexivity |].
  split; [exact Hclear |]. split; [exact Hstay |].
  unfold flap_fires, flap_condition. rewrite sampled_trigger, Hstay.
  rewrite orb_false_r. auto.
Qed.

Lemma coinciding_trigger_absorbed_witness :
  let s := flap (fst (run (repeat (Iterate flap_held) 10) (app_custom_start boot))) in
  cmd_flap_trigger s = true
  /\ (10 <? flap_hold_cnt (sampled flap_held s)) = true
  /\ cmd_flap_trigger
       (fst (run (repeat (Iterate released) 3)
               (state_of (loop_body flap_held s)))) = false.
Proof.
  cbv zeta.
  pose proof (coinciding_trigger_absorbed flap_held
    (flap (fst (run (repeat (Iterate flap_held) 10) (app_custom_start boot))))
    (repeat (Iterate released) 3) released
    eq_refl eq_refl eq_refl eq_refl) as H.
  cbv zeta in H. split; [reflexivity |]. split; [reflexivity |]. apply H.
Defined.

(** ** The hold counters *)

(** C4.  Whatever the thread and its environment have done since the
    application was started, each of the three hold counters is >= 0 at the
    top of an iteration, and the counter-update step moves it by the
    spec's rule (+1 when its input is active, -1 when inactive and
    positive, unchanged when inactive and 0): it stays >= 0 and changes by
    at most 1. *)
Theorem hold_counters_bounded (acts : list action) (i : inputs) :
  let s := fst (run acts (app_custom_start boot)) in
  let s' := sampled i s in
  (0 <= flap_hold_cnt s /\ 0 <= rxpin_hold_cnt s /\ 0 <= pio_hold_cnt s)
  /\ flap_hold_cnt s'
     = spec_hold_counter (negb (pad_level i HW_UART_TX)) (flap_hold_cnt s)
  /\ rxpin_hold_cnt s'
     = spec_hold_counter (negb (pad_level i HW_UART_RX)) (rxpin_hold_cnt s)
  /\ pio_hold_cnt s'
     = spec_hold_counter (negb (pad_level i HW_ICU)) (pio_hold_cnt s)
  /\ (0 <= flap_hold_cnt s' /\ 0 <= rxpin_hold_cnt s' /\ 0 <= pio_hold_cnt s')
  /\ Z.abs (flap_hold_cnt s' - flap_hold_cnt s) <= 1
  /\ Z.abs (rxpin_hold_cnt s' - rxpin_hold_cnt s) <= 1
  /\ Z.abs (pio_hold_cnt s' - pio_hold_cnt s) <= 1.
Proof.
  cbv zeta.
  pose proof (run_in_range acts _ in_range_start) as Hs.
  set (s := fst (run acts (app_custom_start boot))) in *.
  destruct (sampled_in_range i s Hs) as (Ef & Ep & Er).
  rewrite Ef, Ep, Er.
  destruct Hs as [Hf Hp Hr _ _].
  unfold spec_hold_counter.
  destruct (negb (pad_level i HW_UART_TX)), (negb (pad_level i HW_UART_RX)),
    (negb (pad_level i HW_ICU));
    destruct (Z.ltb_spec 0 (flap_hold_cnt s));
    destruct (Z.ltb_spec 0 (rxpin_hold_cnt s));
    destruct (Z.ltb_spec 0 (pio_hold_cnt s));
    repeat split; lia.
Qed.

(** ** The drive countdown *)

Lemma counted_down_formula (n : Z) :
  0 <= n ->
  counted_down (Z.max 0 (7990 - 10 * n)) = Z.max 0 (7990 - 10 * (n + 1)).
Proof.
  intros Hn.
  assert (Hmod : Z.max 0 (7990 - 10 * n) mod 10 = 0).
  { destruct (Z.le_gt_cases 0 (7990 - 10 * n)).
    - rewrite Z.max_r by lia.
      replace (7990 - 10 * n) with ((799 - n) * 10) by lia.
      apply Z.mod_mul. lia.
    - rewrite Z.max_l by lia. reflexivity. }
  destruct (counted_down_multiple (Z.max 0 (7990 - 10 * n))) as (-> & _);
    [lia | exact Hmod | lia].
Qed.

Lemma iterations_cons (i : inputs) (rest : list inputs) (s : state) :
  stop_now s = false ->
  iterations (i :: rest) s = iterations rest (state_of (loop_body i s)).
Proof.
  intros Hstop. unfold iterations. cbn [for_loop]. rewrite bind_run.
  assert (Hcont : result_of (loop_body i s) = true)
    by (rewrite loop_body_explicit by exact Hstop; reflexivity).
  rewrite Hcont. reflexivity.
Qed.

Lemma iterations_countdown (ins : list inputs) (s : state) (n : Z) :
  0 <= n ->
  stop_now s = false ->
  no_flap_event ins s = true ->
  flap_count_ms s = Z.max 0 (7990 - 10 * n) ->
  stop_now (iterations ins s) = false
  /\ flap_count_ms (iterations ins s)
     = Z.max 0 (7990 - 10 * (n + Z.of_nat (List.length ins))).
Proof.
  revert s n. induction ins as [| i rest IH]; intros s n Hn Hstop Hq Hc.
  - cbn. rewrite Z.add_0_r. auto.
  - cbn [no_flap_event] in Hq. apply andb_prop in Hq as [Hi Hrest].
    apply negb_true_iff in Hi.
    destruct (quiet_iteration i s Hstop Hi) as (_ & _ & Hstop1 & Hms & _).
    rewrite Hc, counted_down_formula in Hms by exact Hn.
    destruct (IH _ (n + 1) ltac:(lia) Hstop1 Hrest Hms) as [IH1 IH2].
    rewrite iterations_cons by exact Hstop. cbn [List.length].
    split; [exact IH1 |].
    rewrite IH2. f_equal. lia.
Qed.

(** C5.  The iteration that toggles sets the countdown to 8000 and takes
    the first 10 off it.  Every later iteration without a toggle takes 10
    more off while the countdown is positive.  [n] such iterations after the
    toggling one leave [max 0 (7990 - 10 n)]; the next one, number [n + 2]
    counting the toggling iteration as the first, issues no motor duty
    call as long as the countdown it leaves is positive ([n < 798]) and
    from the 800th on leaves 0 and calls [mc_interface_set_duty(0)],
    once per iteration. *)
Theorem drive_countdown_expiry
  (i0 : inputs) (s0 : state) (ins : list inputs) (i : inputs) :
  stop_now s0 = false ->
  flap_fires i0 s0 = true ->
  let s1 := state_of (loop_body i0 s0) in
  no_flap_event ins s1 = true ->
  let n := Z.of_nat (List.length ins) in
  let s := iterations ins s1 in
  flap_fires i s = false ->
  let r := loop_body i s in
  flap_count_ms s1 = 8000 - 10
  /\ flap_count_ms s = Z.max 0 (7990 - 10 * n)
  /\ flap_count_ms (state_of r) = Z.max 0 (flap_count_ms s - 10)
  /\ (n < 798 ->
      0 < flap_count_ms (state_of r)
      /\ filter is_motor_duty (trace_of r) = [])
  /\ (798 <= n ->
      flap_count_ms (state_of r) = 0
      /\ filter is_motor_duty (trace_of r) = [mc_interface_set_duty 0]).
Proof.
  intros Hstop Hfire s1 Hquiet n s Hq r.
  destruct (firing_iteration i0 s0 Hstop Hfire) as (Hst & _ & _).
  fold s1 in Hst.
  assert (Hms1 : flap_count_ms s1 = 7990) by (rewrite Hst; reflexivity).
  assert (Hstop1 : stop_now s1 = false) by (rewrite Hst; reflexivity).
  destruct (iterations_countdown ins s1 0 ltac:(lia) Hstop1 Hquiet)
    as [Hstop_s Hms_s]; [rewrite Hms1; reflexivity |].
  fold s in Hstop_s, Hms_s. rewrite Z.add_0_l in Hms_s. fold n in Hms_s.
  destruct (quiet_iteration i s Hstop_s Hq) as (_ & _ & _ & Hms_r & _ & _ & Hduty).
  fold r in Hms_r, Hduty.
  assert (Hn : 0 <= n) by (unfold n; lia).
  rewrite Hms_s, counted_down_formula in Hms_r, Hduty by exact Hn.
  rewrite Hms_r, Hduty, Hms_s, Hms1.
  repeat split; try lia.
  - destruct (Z.leb_spec (Z.max 0 (7990 - 10 * (n + 1))) 0); [lia | reflexivity].
  - destruct (Z.leb_spec (Z.max 0 (7990 - 10 * (n + 1))) 0); [reflexivity | lia].
Qed.

Lemma drive_countdown_expiry_witness :
  let s1 := state_of (loop_body released (flap (app_custom_start boot))) in
  flap_count_ms s1 = 7990
  /\ flap_count_ms (iterations (repeat released 798) s1) = 10
  /\ filter is_motor_duty
       (trace_of (loop_body released (iterations (repeat released 798) s1)))
     = [mc_interface_set_duty 0].
Proof.
  cbv zeta.
  pose proof (drive_countdown_expiry released (flap (app_custom_start boot))
                (repeat released 798) released eq_refl eq_refl) as H.
  cbv zeta in H.
  assert (Hq : no_flap_event (repeat released 798)
                 (state_of (loop_body released (flap (app_custom_start boot))))
               = true) by (vm_compute; reflexivity).
  assert (Hl : flap_fires released
                 (iterations (repeat released 798)
                    (state_of (loop_body released (flap (app_custom_start boot)))))
               = false) by (vm_compute; reflexivity).
  destruct (H Hq Hl) as (H1 & H2 & _ & _ & H5).
  split; [exact H1 |]. split; [vm_compute; reflexivity |].
  apply H5. rewrite repeat_length. vm_compute. discriminate.
Defined.

(** ** The watchdog *)

(** The state in which [app_custom_stop] has just raised the stop request
    and the thread has not yet looked at it. *)
Lemma stop_requested_state :
  fst (run [StopRequest] (app_custom_start boot))
  = mkState true true false FLAP_OPEN 0 0 0 0.
Proof. reflexivity. Qed.

(** C6, as stated, fails on the iteration that finds the stop request:
    the loop body returns at line 149, before line 152, and [timeout_reset]
    is not called in it. *)
Lemma watchdog_not_reset_on_stop :
  count is_timeout_reset
    (trace_of (loop_body released
                 (fst (run [StopRequest] (app_custom_start boot)))))
  <> 1%nat.
Proof. vm_compute. discriminate. Qed.

(** C6, amended.  In every iteration of the loop body that does not find
    the stop request set, [timeout_reset] is called exactly once, and it is
    the first call of the iteration: the three pad reads follow it, and
    everything the conditions do comes after those, whichever branches are
    taken. *)
Theorem watchdog_reset_once_when_running (i : inputs) (s : state) :
  stop_now s = false ->
  let r := loop_body i s in
  result_of r = true
  /\ count is_timeout_reset (trace_of r) = 1%nat
  /\ exists rest,
       trace_of r
       = timeout_reset
         :: palReadPad HW_ICU (pad_level i HW_ICU)
         :: palReadPad HW_UART_RX (pad_level i HW_UART_RX)
         :: palReadPad HW_UART_TX (pad_level i HW_UART_TX)
         :: rest
       /\ count is_timeout_reset rest = 0%nat
       /\ count is_pad_read rest = 0%nat.
Proof.
  intros Hstop. cbv zeta. rewrite loop_body_explicit by exact Hstop. cbv zeta.
  cbn [result_of trace_of fst snd].
  split; [reflexivity |].
  split; [| eexists; split; [reflexivity |]];
    destruct (flap_condition (sampled i s));
    destruct (5 <? rxpin_hold_cnt (sampled i s));
    destruct (5 <? pio_hold_cnt (sampled i s));
    match goal with
    | |- context [if ?c then [mc_interface_set_duty 0] else []] => destruct c
    end; split; reflexivity || reflexivity.
Qed.

Lemma watchdog_reset_once_when_running_witness :
  count is_timeout_reset
    (trace_of (loop_body all_held
                 (fst (run (repeat (Iterate all_held) 5) (app_custom_start boot)))))
  = 1%nat.
Proof.
  apply (watchdog_reset_once_when_running all_held
           (fst (run (repeat (Iterate all_held) 5) (app_custom_start boot)))).
  reflexivity.
Defined.

(** ** Order of the three conditions *)

(** C7.  In every iteration that runs, the three conditions are
    evaluated on the counters as updated in that iteration, each on its
    own: the flap condition first, then rxpin, then pio.  Each one that
    holds contributes its whole block (counter cleared, log line, CAN
    command, 500 ms sleep) to the trace, in that order, whether or not the
    others hold. *)
Theorem conditions_evaluated_in_order (i : inputs) (s : state) :
  stop_now s = false ->
  let c1 := sampled i s in
  let fire_flap := (10 <? flap_hold_cnt c1) || cmd_flap_trigger s in
  let fire_rxpin := 5 <? rxpin_hold_cnt c1 in
  let fire_pio := 5 <? pio_hold_cnt c1 in
  let r := loop_body i s in
  let d := flap_direction (state_of r) in
  let duty := utils_map (inject_Z d) 0 1 (- l_max_duty i) (l_max_duty i) in
  trace_of r
  = [timeout_reset;
     palReadPad HW_ICU (pad_level i HW_ICU);
     palReadPad HW_UART_RX (pad_level i HW_UART_RX);
     palReadPad HW_UART_TX (pad_level i HW_UART_TX)]
    ++ (if fire_flap then
          [commands_printf "flap button pressed";
           commands_printf ("new flap direction " ++ direction_label d ++ nl);
           comm_can_set_duty 99 duty;
           mc_interface_set_duty duty;
           chThdSleepMilliseconds 500]
        else [])
    ++ (if fire_rxpin then
          [commands_printf "rxpin button pressed";
           comm_can_set_current 99 1;
           chThdSleepMilliseconds 500]
        else [])
    ++ (if fire_pio then
          [commands_printf "piopin button pressed";
           comm_can_set_current_brake 99 1;
           chThdSleepMilliseconds 500]
        else [])
    ++ (if flap_count_ms (state_of r) <=? 0 then [mc_interface_set_duty 0]
        else [])
    ++ [chThdSleepMilliseconds 10]
  /\ flap_hold_cnt (state_of r) = (if fire_flap then 0 else flap_hold_cnt c1)
  /\ rxpin_hold_cnt (state_of r) = (if fire_rxpin then 0 else rxpin_hold_cnt c1)
  /\ pio_hold_cnt (state_of r) = (if fire_pio then 0 else pio_hold_cnt c1).
Proof.
  intros Hstop. cbv zeta. rewrite loop_body_explicit by exact Hstop. cbv zeta.
  unfold flap_condition. rewrite sampled_trigger.
  cbn [state_of trace_of fst snd flap_direction flap_hold_cnt rxpin_hold_cnt
       pio_hold_cnt flap_count_ms].
  repeat split.
Qed.

Lemma conditions_evaluated_in_order_witness :
  let s := flap (fst (run (repeat (Iterate all_held) 5) (app_custom_start boot))) in
  let duty := utils_map 1 0 1 (- (95 # 100)) (95 # 100) in
  trace_of (loop_body all_held s)
  = [timeout_reset;
     palReadPad HW_ICU false; palReadPad HW_UART_RX false;
     palReadPad HW_UART_TX false;
     commands_printf "flap button pressed";
     commands_printf ("new flap direction open" ++ nl);
     comm_can_set_duty 99 duty;
     mc_interface_set_duty duty;
     chThdSleepMilliseconds 500;
     commands_printf "rxpin button pressed";
     comm_can_set_current 99 1;
     chThdSleepMilliseconds 500;
     commands_printf "piopin button pressed";
     comm_can_set_current_brake 99 1;
     chThdSleepMilliseconds 500;
     chThdSleepMilliseconds 10].
Proof.
  cbv zeta.
  apply (conditions_evaluated_in_order all_held
           (flap (fst (run (repeat (Iterate all_held) 5) (app_custom_start boot))))).
  reflexivity.
Defined.

(** * Further properties of the thread *)

(** ** One iteration, field by field *)

Lemma iteration_state (i : inputs) (s : state) :
  stop_now s = false ->
  let c1 := sampled i s in
  let s' := state_of (loop_body i s) in
  stop_now s' = false
  /\ is_running s' = is_running s
  /\ cmd_flap_trigger s' = (if flap_fires i s then false else cmd_flap_trigger s)
  /\ flap_direction s'
     = (if flap_fires i s then toggled (flap_direction s) else flap_direction s)
  /\ flap_hold_cnt s' = (if flap_fires i s then 0 else flap_hold_cnt c1)
  /\ rxpin_hold_cnt s' = (if 5 <? rxpin_hold_cnt c1 then 0 else rxpin_hold_cnt c1)
  /\ pio_hold_cnt s' = (if 5 <? pio_hold_cnt c1 then 0 else pio_hold_cnt c1).
Proof.
  intros Hstop. cbv zeta. rewrite loop_body_explicit by exact Hstop.
  cbv zeta. unfold flap_fires. repeat split.
Qed.

Lemma iteration_aux_calls (i : inputs) (s : state) :
  stop_now s = false ->
  let c1 := sampled i s in
  let t := trace_of (loop_body i s) in
  filter is_can_current t
  = (if 5 <? rxpin_hold_cnt c1 then [comm_can_set_current 99 1] else [])
  /\ filter is_can_current_brake t
     = (if 5 <? pio_hold_cnt c1 then [comm_can_set_current_brake 99 1] else [])
  /\ filter is_toggle_log t
     = (if flap_fires i s
        then [commands_printf
                ("new flap direction "
                 ++ direction_label (toggled (flap_direction s)) ++ nl)]
        else [])
  /\ filter is_can_duty t
     = (if flap_fires i s
        then [comm_can_set_duty 99
                (utils_map (inject_Z (toggled (flap_direction s))) 0 1
                   (- l_max_duty i) (l_max_duty i))]
        else []).
Proof.
  intros Hstop. cbv zeta. rewrite loop_body_explicit by exact Hstop.
  cbv zeta. unfold flap_fires. cbn [trace_of snd].
  pose proof (toggle_log_recognised (toggled (flap_direction s))) as Hlog.
  repeat split;
    destruct (flap_condition (sampled i s));
    destruct (5 <? rxpin_hold_cnt (sampled i s));
    destruct (5 <? pio_hold_cnt (sampled i s));
    match goal with
    | |- context [if ?c then [mc_interface_set_duty 0] else []] => destruct c
    end;
    cbn [app filter is_toggle_log is_can_current is_can_current_brake
         is_can_duty String.eqb Ascii.eqb Bool.eqb orb "++"%string] in *;
    rewrite ?Hlog; reflexivity.
Qed.

Lemma for_loop_cons (i : inputs) (rest : list inputs) (s : state) :
  stop_now s = false ->
  for_loop (i :: rest) s
  = (tt, state_of (for_loop rest (state_of (loop_body i s))),
     trace_of (loop_body i s)
     ++ trace_of (for_loop rest (state_of (loop_body i s)))).
Proof.
  intros Hstop. cbn [for_loop]. rewrite bind_run.
  assert (Hcont : result_of (loop_body i s) = true)
    by (rewrite loop_body_explicit by exact Hstop; reflexivity).
  rewrite Hcont. destruct (for_loop rest _) as [[[] s2] t2]. reflexivity.
Qed.

Lemma for_loop_trace_cons (i : inputs) (rest : list inputs) (s : state) :
  stop_now s = false ->
  trace_of (for_loop (i :: rest) s)
  = trace_of (loop_body i s)
    ++ trace_of (for_loop rest (state_of (loop_body i s))).
Proof. intros Hstop. rewrite for_loop_cons by exact Hstop. reflexivity. Qed.

(** ** Ranges in every reachable state *)

Lemma in_range_boot : in_range boot.
Proof. split; cbn; try lia; auto. Qed.

Lemma app_custom_start_in_range (s : state) :
  in_range s -> in_range (app_custom_start s).
Proof. intros [_ _ _ _ Hd]. split; cbn; try lia; auto. Qed.

(** X1.  In every state the application can reach, restarts included, the flap
    counter is within 0..10 and the two auxiliary counters within 0..5 (so
    the 32-bit increments never overflow), the countdown is a multiple of
    10 within 0..8000 (it never goes negative), and [flap_direction] is 0
    or 1. *)
Theorem reachable_state_ranges (s : state) :
  reachable s ->
  0 <= flap_hold_cnt s <= 10
  /\ 0 <= rxpin_hold_cnt s <= 5
  /\ 0 <= pio_hold_cnt s <= 5
  /\ 0 <= flap_count_ms s <= 8000
  /\ flap_count_ms s mod 10 = 0
  /\ (flap_direction s = FLAP_OPEN \/ flap_direction s = FLAP_CLOSE).
Proof.
  intros Hreach.
  assert (Hr : in_range s).
  { induction Hreach as [| s _ IH | a s _ IH].
    - exact in_range_boot.
    - apply app_custom_start_in_range, IH.
    - apply perform_in_range, IH. }
  destruct Hr as [Hf Hp Hx [Hc Hm] Hd]. auto 10.
Qed.

Lemma reachable_state_ranges_witness :
  0 <= flap_hold_cnt (fst (perform (Iterate flap_held) (app_custom_start boot)))
  <= 10.
Proof.
  apply (reachable_state_ranges _
           (reach_perform (Iterate flap_held) _ (reach_start _ reach_boot))).
Defined.

(** ** Debouncing of the flap button *)

(** One iteration in which the flag is clear and the updated counter does
    not exceed 10. *)
Lemma flap_counting_iteration (i : inputs) (s : state) :
  stop_now s = false ->
  cmd_flap_trigger s = false ->
  0 <= flap_hold_cnt s <= 10 ->
  spec_hold_counter (negb (pad_level i HW_UART_TX)) (flap_hold_cnt s) <= 10 ->
  let s' := state_of (loop_body i s) in
  flap_fires i s = false
  /\ stop_now s' = false
  /\ cmd_flap_trigger s' = false
  /\ flap_direction s' = flap_direction s
  /\ flap_hold_cnt s'
     = spec_hold_counter (negb (pad_level i HW_UART_TX)) (flap_hold_cnt s).
Proof.
  intros Hstop Htrig Hc Hle. cbv zeta.
  assert (Hc1 : flap_hold_cnt (sampled i s)
                = spec_hold_counter (negb (pad_level i HW_UART_TX))
                    (flap_hold_cnt s)).
  { rewrite sampled_fields. cbn [flap_hold_cnt].
    apply (hold_counter_in_range _ _ 10); [exact Hc | lia]. }
  assert (Hq : flap_fires i s = false).
  { unfold flap_fires, flap_condition. rewrite sampled_trigger, Htrig, Hc1.
    rewrite orb_false_r. apply Z.ltb_ge. exact Hle. }
  destruct (iteration_state i s Hstop) as (H1 & _ & H3 & H4 & H5 & _).
  rewrite Hq in H3, H4, H5. rewrite Hc1 in H5. rewrite Htrig in H3.
  repeat split; assumption.
Qed.

Lemma presses_cons (p : pad) (i : inputs) (rest : list inputs) :
  presses p (i :: rest)
  = (if negb (pad_level i p) then 1 else 0) + presses p rest.
Proof.
  unfold presses. cbn [filter].
  destruct (negb (pad_level i p)); cbn [List.length]; lia.
Qed.

Lemma presses_nonneg (p : pad) (ins : list inputs) : 0 <= presses p ins.
Proof. unfold presses. lia. Qed.

Lemma flap_presses_bound (ins : list inputs) (s : state) :
  stop_now s = false ->
  cmd_flap_trigger s = false ->
  0 <= flap_hold_cnt s ->
  flap_hold_cnt s + presses HW_UART_TX ins <= 10 ->
  no_flap_event ins s = true
  /\ flap_direction (iterations ins s) = flap_direction s
  /\ 0 <= flap_hold_cnt (iterations ins s)
     <= flap_hold_cnt s + presses HW_UART_TX ins
  /\ filter is_toggle_log (trace_of (for_loop ins s)) = []
  /\ filter is_can_duty (trace_of (for_loop ins s)) = [].
Proof.
  revert s. induction ins as [| i rest IH]; intros s Hstop Htrig Hc Hle.
  - unfold iterations, presses. cbn. repeat split; lia.
  - rewrite presses_cons in Hle |- *.
    pose proof (presses_nonneg HW_UART_TX rest) as Hp.
    set (a := negb (pad_level i HW_UART_TX)) in *.
    assert (Hspec : 0 <= spec_hold_counter a (flap_hold_cnt s)
                    <= flap_hold_cnt s + (if a then 1 else 0)).
    { unfold spec_hold_counter. destruct a; [lia |].
      destruct (Z.ltb_spec 0 (flap_hold_cnt s)); lia. }
    assert (Hc' : 0 <= flap_hold_cnt s <= 10) by (destruct a; lia).
    destruct (flap_counting_iteration i s Hstop Htrig Hc' ltac:(fold a; lia))
      as (Hq & Hstop1 & Htrig1 & Hdir1 & Hcnt1).
    fold a in Hcnt1.
    destruct (IH (state_of (loop_body i s)) Hstop1 Htrig1
                ltac:(rewrite Hcnt1; lia) ltac:(rewrite Hcnt1; lia))
      as (IH1 & IH2 & IH3 & IH4 & IH5).
    destruct (iteration_aux_calls i s Hstop) as (_ & _ & Hlog & Hcan).
    rewrite Hq in Hlog, Hcan.
    rewrite iterations_cons, for_loop_trace_cons by exact Hstop.
    rewrite !filter_app, Hlog, Hcan, IH4, IH5.
    cbn [no_flap_event]. rewrite Hq, IH1, IH2, Hdir1.
    rewrite Hcnt1 in IH3. repeat split; try reflexivity; lia.
Qed.

(** X2.  However the flap button bounces, a toggle needs presses: while the flag
    is clear and the counter plus the number of iterations that sample the
    button pressed stays at or below 10, no iteration toggles, whatever
    the length and order of the inputs. *)
Theorem flap_debounce_needs_presses (ins : list inputs) (s : state) :
  stop_now s = false ->
  cmd_flap_trigger s = false ->
  0 <= flap_hold_cnt s ->
  flap_hold_cnt s + presses HW_UART_TX ins <= 10 ->
  no_flap_event ins s = true
  /\ flap_direction (iterations ins s) = flap_direction s
  /\ count is_toggle_log (trace_of (for_loop ins s)) = 0%nat
  /\ count is_can_duty (trace_of (for_loop ins s)) = 0%nat.
Proof.
  intros Hstop Htrig Hc Hle.
  destruct (flap_presses_bound ins s Hstop Htrig Hc Hle)
    as (H1 & H2 & _ & H4 & H5).
  unfold count. rewrite H4, H5. auto.
Qed.

Lemma flap_debounce_needs_presses_witness :
  let bounce := [flap_held; released; flap_held; flap_held; released] in
  flap_direction
    (iterations (bounce ++ bounce ++ bounce) (app_custom_start boot))
  = FLAP_OPEN.
Proof.
  cbv zeta.
  apply (flap_debounce_needs_presses
           ([flap_held; released; flap_held; flap_held; released]
            ++ [flap_held; released; flap_held; flap_held; released]
            ++ [flap_held; released; flap_held; flap_held; released])
           (app_custom_start boot));
    vm_compute; try reflexivity; discriminate.
Defined.

Lemma held_cons (p : pad) (i : inputs) (rest : list inputs) :
  held p (i :: rest) = true ->
  pad_level i p = false /\ held p rest = true.
Proof.
  unfold held. cbn [forallb]. intros H. apply andb_prop in H as [Hi Hr].
  apply negb_true_iff in Hi. auto.
Qed.

Lemma flap_held_counter (ins : list inputs) (s : state) :
  stop_now s = false ->
  cmd_flap_trigger s = false ->
  0 <= flap_hold_cnt s ->
  held HW_UART_TX ins = true ->
  flap_hold_cnt s + Z.of_nat (List.length ins) <= 10 ->
  stop_now (iterations ins s) = false
  /\ cmd_flap_trigger (iterations ins s) = false
  /\ flap_direction (iterations ins s) = flap_direction s
  /\ flap_hold_cnt (iterations ins s)
     = flap_hold_cnt s + Z.of_nat (List.length ins)
  /\ presses HW_UART_TX ins = Z.of_nat (List.length ins).
Proof.
  revert s. induction ins as [| i rest IH]; intros s Hstop Htrig Hc Hheld Hle.
  - unfold iterations, presses. cbn. repeat split; auto; lia.
  - apply held_cons in Hheld as [Hi Hrest]. cbn [List.length] in Hle |- *.
    assert (Hspec : spec_hold_counter (negb (pad_level i HW_UART_TX))
                      (flap_hold_cnt s) = flap_hold_cnt s + 1)
      by (rewrite Hi; reflexivity).
    destruct (flap_counting_iteration i s Hstop Htrig ltac:(lia)
                ltac:(rewrite Hspec; lia))
      as (_ & Hstop1 & Htrig1 & Hdir1 & Hcnt1).
    rewrite Hspec in Hcnt1.
    destruct (IH (state_of (loop_body i s)) Hstop1 Htrig1
                ltac:(lia) Hrest ltac:(lia))
      as (IH1 & IH2 & IH3 & IH4 & IH5).
    rewrite iterations_cons by exact Hstop.
    rewrite presses_cons, Hi, IH5, IH4, IH3, Hcnt1, Hdir1. cbn [negb].
    repeat split; auto; lia.
Qed.

(** X3.  Holding the flap button toggles on schedule: with the flag clear and
    the counter at [c], [10 - c] iterations that sample the button pressed
    pass without a toggle and bring the counter to 10; the next such
    iteration toggles the direction, once, and clears the counter. *)
Theorem flap_hold_toggles_on_schedule
  (ins : list inputs) (i : inputs) (s : state) :
  stop_now s = false ->
  cmd_flap_trigger s = false ->
  0 <= flap_hold_cnt s ->
  held HW_UART_TX ins = true ->
  pad_level i HW_UART_TX = false ->
  flap_hold_cnt s + Z.of_nat (List.length ins) = 10 ->
  let s10 := iterations ins s in
  let r := loop_body i s10 in
  no_flap_event ins s = true
  /\ count is_toggle_log (trace_of (for_loop ins s)) = 0%nat
  /\ flap_hold_cnt s10 = 10
  /\ flap_fires i s10 = true
  /\ count is_toggle_log (trace_of r) = 1%nat
  /\ flap_direction (state_of r) = toggled (flap_direction s)
  /\ flap_hold_cnt (state_of r) = 0.
Proof.
  intros Hstop Htrig Hc Hheld Hi Hlen. cbv zeta.
  destruct (flap_held_counter ins s Hstop Htrig Hc Hheld ltac:(lia))
    as (Hstop10 & Htrig10 & Hdir10 & Hcnt10 & Hpress).
  destruct (flap_presses_bound ins s Hstop Htrig Hc
              ltac:(rewrite Hpress; lia))
    as (Hq & _ & _ & Hlog & _).
  rewrite Hlen in Hcnt10.
  assert (Hfire : flap_fires i (iterations ins s) = true).
  { unfold flap_fires, flap_condition. rewrite sampled_fields.
    cbn [flap_hold_cnt]. rewrite Hi, Hcnt10. reflexivity. }
  destruct (firing_iteration i _ Hstop10 Hfire) as (Hst & _ & Hlog1).
  unfold count. rewrite Hlog, Hlog1, Hst, Hdir10.
  repeat split; auto.
Qed.

Lemma flap_hold_toggles_on_schedule_witness :
  let s := iterations (repeat flap_held 4) (app_custom_start boot) in
  flap_hold_cnt s = 4
  /\ flap_direction
       (state_of (loop_body all_held (iterations (repeat all_held 6) s)))
     = FLAP_CLOSE.
Proof.
  cbv zeta. split; [reflexivity |].
  apply (flap_hold_toggles_on_schedule (repeat all_held 6) all_held
           (iterations (repeat flap_held 4) (app_custom_start boot)));
    vm_compute; try reflexivity; discriminate.
Defined.

(** ** The auxiliary buttons *)

Lemma aux_iteration (b : aux_button) (i : inputs) (s : state) :
  stop_now s = false ->
  0 <= aux_counter b s <= 5 ->
  let c1 := spec_hold_counter (negb (pad_level i (aux_pad b))) (aux_counter b s) in
  let r := loop_body i s in
  stop_now (state_of r) = false
  /\ aux_counter b (state_of r) = (if 5 <? c1 then 0 else c1)
  /\ filter (is_aux_command b) (trace_of r)
     = (if 5 <? c1 then [aux_command b] else []).
Proof.
  intros Hstop Hc. cbv zeta.
  destruct (iteration_state i s Hstop) as (H1 & _ & _ & _ & _ & Hrx & Hpio).
  destruct (iteration_aux_calls i s Hstop) as (Hcur & Hbrk & _).
  rewrite sampled_fields in Hrx, Hpio, Hcur, Hbrk.
  cbn [rxpin_hold_cnt pio_hold_cnt] in Hrx, Hpio, Hcur, Hbrk.
  destruct b; cbn [aux_counter aux_pad is_aux_command aux_command] in *.
  - destruct (hold_counter_in_range (negb (pad_level i HW_UART_RX)) _ 5 Hc
                ltac:(lia)) as [E _].
    rewrite E in Hrx, Hcur. auto.
  - destruct (hold_counter_in_range (negb (pad_level i HW_ICU)) _ 5 Hc
                ltac:(lia)) as [E _].
    rewrite E in Hpio, Hbrk. auto.
Qed.

Lemma aux_presses_bound (b : aux_button) (ins : list inputs) (s : state) :
  stop_now s = false ->
  0 <= aux_counter b s ->
  aux_counter b s + presses (aux_pad b) ins <= 5 ->
  stop_now (iterations ins s) = false
  /\ 0 <= aux_counter b (iterations ins s)
     <= aux_counter b s + presses (aux_pad b) ins
  /\ (held (aux_pad b) ins = true ->
      aux_counter b (iterations ins s)
      = aux_counter b s + Z.of_nat (List.length ins))
  /\ filter (is_aux_command b) (trace_of (for_loop ins s)) = [].
Proof.
  revert s. induction ins as [| i rest IH]; intros s Hstop Hc Hle.
  - unfold iterations, presses. cbn. repeat split; auto; lia.
  - rewrite presses_cons in Hle |- *.
    pose proof (presses_nonneg (aux_pad b) rest) as Hp.
    set (a := negb (pad_level i (aux_pad b))) in *.
    assert (Hspec : 0 <= spec_hold_counter a (aux_counter b s)
                    <= aux_counter b s + (if a then 1 else 0)
                    /\ (a = true ->
                        spec_hold_counter a (aux_counter b s)
                        = aux_counter b s + 1)).
    { unfold spec_hold_counter. destruct a; [lia |].
      destruct (Z.ltb_spec 0 (aux_counter b s)); split; try lia; discriminate. }
    destruct Hspec as [Hspec Hexact].
    assert (Hc' : 0 <= aux_counter b s <= 5) by (destruct a; lia).
    destruct (aux_iteration b i s Hstop Hc') as (Hstop1 & Hcnt1 & Hcmd1).
    fold a in Hcnt1, Hcmd1.
    assert (Hno : (5 <? spec_hold_counter a (aux_counter b s)) = false)
      by (apply Z.ltb_ge; destruct a; lia).
    rewrite Hno in Hcnt1, Hcmd1.
    destruct (IH (state_of (loop_body i s)) Hstop1
                ltac:(rewrite Hcnt1; lia) ltac:(rewrite Hcnt1; lia))
      as (IH1 & IH2 & IH3 & IH4).
    rewrite iterations_cons, for_loop_trace_cons by exact Hstop.
    rewrite filter_app, Hcmd1, IH4. rewrite Hcnt1 in IH2, IH3.
    repeat split; try assumption; try reflexivity; try lia.
    intros Hheld. apply held_cons in Hheld as [Hi Hrest].
    rewrite (IH3 Hrest), Hexact by (unfold a; rewrite Hi; reflexivity).
    cbn [List.length]. lia.
Qed.

Lemma presses_held (p : pad) (ins : list inputs) :
  held p ins = true -> presses p ins = Z.of_nat (List.length ins).
Proof.
  induction ins as [| i rest IH]; intros H; [reflexivity |].
  apply held_cons in H as [Hi Hrest].
  rewrite presses_cons, Hi, (IH Hrest). cbn [negb List.length]. lia.
Qed.

(** X4.  An auxiliary button (rxpin or pio) needs presses too: as long as its
    counter plus the number of iterations that sample it pressed stays at
    or below 5, its CAN command is not sent, whatever the flap button and
    the other auxiliary button do meanwhile. *)
Theorem aux_debounce_needs_presses
  (b : aux_button) (ins : list inputs) (s : state) :
  stop_now s = false ->
  0 <= aux_counter b s ->
  aux_counter b s + presses (aux_pad b) ins <= 5 ->
  count (is_aux_command b) (trace_of (for_loop ins s)) = 0%nat
  /\ 0 <= aux_counter b (iterations ins s)
     <= aux_counter b s + presses (aux_pad b) ins.
Proof.
  intros Hstop Hc Hle.
  destruct (aux_presses_bound b ins s Hstop Hc Hle) as (_ & H2 & _ & H4).
  unfold count. rewrite H4. auto.
Qed.

Lemma aux_debounce_needs_presses_witness :
  count is_can_current_brake
    (trace_of (for_loop [all_held; released; all_held; all_held; flap_held;
                         all_held; all_held]
                 (app_custom_start boot)))
  = 0%nat.
Proof.
  apply (aux_debounce_needs_presses Pio
           [all_held; released; all_held; all_held; flap_held;
            all_held; all_held]
           (app_custom_start boot));
    vm_compute; try reflexivity; discriminate.
Defined.

(** X5.  Holding an auxiliary button sends its command on schedule: with the
    counter at [c], [5 - c] iterations that sample the button pressed send
    nothing and bring the counter to 5; the next such iteration sends the
    button's CAN command (current 1 for rxpin, brake current 1 for pio, to
    controller 99) exactly once and clears the counter. *)
Theorem aux_hold_sends_command
  (b : aux_button) (ins : list inputs) (i : inputs) (s : state) :
  stop_now s = false ->
  0 <= aux_counter b s ->
  held (aux_pad b) ins = true ->
  pad_level i (aux_pad b) = false ->
  aux_counter b s + Z.of_nat (List.length ins) = 5 ->
  let s5 := iterations ins s in
  let r := loop_body i s5 in
  count (is_aux_command b) (trace_of (for_loop ins s)) = 0%nat
  /\ aux_counter b s5 = 5
  /\ filter (is_aux_command b) (trace_of r) = [aux_command b]
  /\ aux_counter b (state_of r) = 0.
Proof.
  intros Hstop Hc Hheld Hi Hlen. cbv zeta.
  destruct (aux_presses_bound b ins s Hstop Hc
              ltac:(rewrite (presses_held _ _ Hheld); lia))
    as (Hstop5 & _ & Hexact & Hnone).
  specialize (Hexact Hheld). rewrite Hlen in Hexact.
  destruct (aux_iteration b i _ Hstop5 ltac:(rewrite Hexact; lia))
    as (_ & Hcnt & Hcmd).
  rewrite Hexact, Hi in Hcnt, Hcmd.
  unfold count. rewrite Hnone. auto.
Qed.

Lemma aux_hold_sends_command_witness :
  filter is_can_current
    (trace_of (loop_body all_held
                 (iterations (repeat all_held 5) (app_custom_start boot))))
  = [comm_can_set_current 99 1].
Proof.
  apply (aux_hold_sends_command Rxpin (repeat all_held 5) all_held
           (app_custom_start boot));
    vm_compute; try reflexivity; discriminate.
Defined.

(** ** Sleeping and the watchdog *)

Lemma sleep_total_app (t1 t2 : list call) :
  sleep_total (t1 ++ t2) = sleep_total t1 + sleep_total t2.
Proof.
  induction t1 as [| c t1 IH]; [reflexivity |].
  destruct c; cbn [app sleep_total]; rewrite IH; lia.
Qed.

(** What follows the watchdog reset in the trace of an iteration. *)
Lemma iteration_trace_shape (i : inputs) (s : state) :
  stop_now s = false ->
  exists rest,
    trace_of (loop_body i s) = timeout_reset :: rest
    /\ filter is_timeout_reset rest = []
    /\ sleep_total rest
       = 10 + 500 * (Z.b2z (flap_fires i s)
                     + Z.b2z (5 <? rxpin_hold_cnt (sampled i s))
                     + Z.b2z (5 <? pio_hold_cnt (sampled i s))).
Proof.
  intros Hstop. rewrite loop_body_explicit by exact Hstop. cbv zeta.
  unfold flap_fires. cbn [trace_of snd app]. eexists. split; [reflexivity |].
  destruct (flap_condition (sampled i s));
    destruct (5 <? rxpin_hold_cnt (sampled i s));
    destruct (5 <? pio_hold_cnt (sampled i s));
    match goal with
    | |- context [if ?c then [mc_interface_set_duty 0] else []] => destruct c
    end; split; reflexivity.
Qed.

(** X6.  An iteration that runs requests 10 ms of sleep plus 500 ms for each of
    the three blocks it takes: between 10 and 1510 ms in all. *)
Theorem iteration_sleep_budget (i : inputs) (s : state) :
  stop_now s = false ->
  let t := trace_of (loop_body i s) in
  sleep_total t
  = 10 + 500 * (Z.b2z (flap_fires i s)
                + Z.b2z (5 <? rxpin_hold_cnt (sampled i s))
                + Z.b2z (5 <? pio_hold_cnt (sampled i s)))
  /\ 10 <= sleep_total t <= 1510.
Proof.
  intros Hstop. cbv zeta.
  destruct (iteration_trace_shape i s Hstop) as (rest & -> & _ & Hsleep).
  cbn [sleep_total]. rewrite Hsleep.
  destruct (flap_fires i s);
    destruct (5 <? rxpin_hold_cnt (sampled i s));
    destruct (5 <? pio_hold_cnt (sampled i s)); cbn [Z.b2z]; lia.
Qed.

Lemma iteration_sleep_budget_witness :
  sleep_total
    (trace_of (loop_body all_held
       (flap (iterations (repeat all_held 5) (app_custom_start boot)))))
  = 1510.
Proof.
  apply (iteration_sleep_budget all_held
           (flap (iterations (repeat all_held 5) (app_custom_start boot)))).
  reflexivity.
Defined.

Lemma gaps_within_quiet (bound slept : Z) (rest t : list call) :
  filter is_timeout_reset rest = [] ->
  gaps_within bound slept (rest ++ t)
  = gaps_within bound (slept + sleep_total rest) t.
Proof.
  revert slept. induction rest as [| c rest IH]; intros slept Hq.
  - cbn. rewrite Z.add_0_r. reflexivity.
  - destruct c; cbn [filter is_timeout_reset] in Hq; try discriminate Hq;
      cbn [app gaps_within sleep_total]; rewrite IH by exact Hq;
      f_equal; lia.
Qed.

Lemma gaps_within_reset_led (bound slept : Z) (t : list call) :
  0 <= bound ->
  t = [] \/ (exists rest, t = timeout_reset :: rest) ->
  gaps_within bound slept t = (slept <=? bound) && gaps_within bound 0 t.
Proof.
  intros Hb [-> | [rest ->]]; cbn [gaps_within].
  - destruct (Z.leb_spec 0 bound); [| lia]. rewrite andb_true_r. reflexivity.
  - destruct (Z.leb_spec 0 bound); [| lia]. reflexivity.
Qed.

Lemma perform_trace_shape (a : action) (s : state) :
  snd (perform a s) = []
  \/ exists rest,
       snd (perform a s) = timeout_reset :: rest
       /\ filter is_timeout_reset rest = []
       /\ sleep_total rest <= 1510.
Proof.
  destruct a as [i | |]; cbn [perform snd]; auto.
  destruct (is_running s); cbn [snd]; auto.
  destruct (stop_now s) eqn:Hstop.
  - rewrite loop_body_stop by exact Hstop. auto.
  - right. destruct (iteration_trace_shape i s Hstop) as (rest & E & Hq & Hs).
    exists rest. repeat split; auto. rewrite Hs.
    destruct (flap_fires i s);
      destruct (5 <? rxpin_hold_cnt (sampled i s));
      destruct (5 <? pio_hold_cnt (sampled i s)); cbn [Z.b2z]; lia.
Qed.

Lemma run_cons (a : action) (rest : list action) (s : state) :
  run (a :: rest) s
  = (fst (run rest (fst (perform a s))),
     snd (perform a s) ++ snd (run rest (fst (perform a s)))).
Proof.
  cbn [run]. destruct (perform a s) as [s1 t1]. cbn [fst snd].
  destruct (run rest s1) as [s2 t2]. reflexivity.
Qed.

Lemma run_gaps (acts : list action) (s : state) :
  (snd (run acts s) = [] \/ exists rest, snd (run acts s) = timeout_reset :: rest)
  /\ gaps_within 1510 0 (snd (run acts s)) = true.
Proof.
  revert s. induction acts as [| a more IH]; intros s.
  - cbn. auto.
  - rewrite run_cons. cbn [snd].
    destruct (IH (fst (perform a s))) as [Hled Hgaps].
    destruct (perform_trace_shape a s) as [-> | (rest & -> & Hq & Hs)].
    + cbn [app]. auto.
    + split; [right; eexists; reflexivity |].
      cbn [app gaps_within]. rewrite gaps_within_quiet by exact Hq.
      rewrite gaps_within_reset_led by (auto; lia).
      rewrite Hgaps. cbn. destruct (Z.leb_spec (sleep_total rest) 1510); auto; lia.
Qed.

(** X7.  Whatever the inputs and whatever the terminal and the owner do, the
    thread never requests more than 1510 ms of sleep between two calls of
    [timeout_reset] (or after the last one): every stretch of the trace
    between watchdog resets sleeps at most 10 + 3 * 500 ms. *)
Theorem watchdog_gap_bounded (acts : list action) (s : state) :
  gaps_within 1510 0 (snd (run acts s)) = true.
Proof. apply run_gaps. Qed.

(** ** Stopping and restarting *)



(** X9.  A terminal [flap] command that the thread has not consumed when the
    application is stopped is not lost: [cmd_flap_trigger] and
    [flap_direction] are statics that neither stopping nor starting
    resets, so the first iteration after a restart toggles, from the
    direction the flap had before the stop, with nothing pressed or held. *)
Theorem pending_trigger_survives_restart (i i' : inputs) (s : state) :
  let stopped := run [TerminalFlap; StopRequest; Iterate i] s in
  let restarted := app_custom_start (fst stopped) in
  let r := loop_body i' restarted in
  snd stopped = []
  /\ is_running (fst stopped) = false
  /\ flap_hold_cnt restarted = 0
  /\ cmd_flap_trigger restarted = true
  /\ flap_direction restarted = flap_direction s
  /\ flap_fires i' restarted = true
  /\ count is_toggle_log (trace_of r) = 1%nat
  /\ flap_direction (state_of r) = toggled (flap_direction s).
Proof.
  cbv zeta.
  assert (Hrun : run [TerminalFlap; StopRequest; Iterate i] s
                 = (set_is_running false (set_stop_now true (flap s)), [])).
  { rewrite !run_cons. cbn [perform fst snd run app].
    destruct (is_running s) eqn:Hr; cbn [is_running set_stop_now flap
      set_cmd_flap_trigger]; rewrite ?Hr; [rewrite loop_body_stop by reflexivity |];
      destruct s; cbn in *; subst; reflexivity. }
  rewrite Hrun. cbn [fst snd].
  set (restarted := app_custom_start _).
  assert (Hstop : stop_now restarted = false) by reflexivity.
  assert (Hfire : flap_fires i' restarted = true).
  { unfold flap_fires, flap_condition. rewrite sampled_trigger.
    apply orb_true_r. }
  destruct (firing_iteration i' restarted Hstop Hfire) as (Hst & _ & Hlog).
  unfold count. rewrite Hlog, Hst. repeat split; try reflexivity.
  exact Hfire.
Qed.

(** ** Direction, toggles and CAN traffic over a whole run *)

Lemma count_app (p : call -> bool) (t1 t2 : list call) :
  count p (t1 ++ t2) = (count p t1 + count p t2)%nat.
Proof. unfold count. rewrite filter_app, length_app. reflexivity. Qed.

Lemma toggled_parity (d : Z) :
  d = 0 \/ d = 1 -> toggled d = (d + 1) mod 2.
Proof. intros [-> | ->]; reflexivity. Qed.

Lemma perform_parity (a : action) (s : state) :
  flap_direction s = 0 \/ flap_direction s = 1 ->
  (flap_direction (fst (perform a s)) = 0
   \/ flap_direction (fst (perform a s)) = 1)
  /\ flap_direction (fst (perform a s))
     = (flap_direction s
        + Z.of_nat (count is_toggle_log (snd (perform a s)))) mod 2
  /\ count is_can_duty (snd (perform a s))
     = count is_toggle_log (snd (perform a s)).
Proof.
  intros Hd.
  assert (Hsame : flap_direction s = (flap_direction s + Z.of_nat 0) mod 2)
    by (destruct Hd as [-> | ->]; reflexivity).
  destruct a as [i | |]; cbn [perform fst snd]; auto.
  destruct (is_running s); cbn [fst snd]; auto.
  destruct (stop_now s) eqn:Hstop.
  - rewrite loop_body_stop by exact Hstop. auto.
  - destruct (iteration_state i s Hstop) as (_ & _ & _ & Hdir & _).
    destruct (iteration_aux_calls i s Hstop) as (_ & _ & Hlog & Hcan).
    unfold count. rewrite Hdir, Hlog, Hcan.
    destruct (flap_fires i s); cbn [List.length]; auto.
    rewrite <- toggled_parity by exact Hd.
    destruct (toggled_binary (flap_direction s)); auto.
Qed.

(** X10.  Over any run, [flap_direction] is its starting value flipped once per
    toggle line printed, and every toggle goes with exactly one CAN duty
    command: the direction is the starting one plus the number of toggles,
    modulo 2, and the numbers of CAN duty commands and toggles agree. *)
Theorem direction_parity_of_toggles (acts : list action) (s : state) :
  flap_direction s = FLAP_OPEN \/ flap_direction s = FLAP_CLOSE ->
  let r := run acts s in
  flap_direction (fst r)
  = (flap_direction s + Z.of_nat (count is_toggle_log (snd r))) mod 2
  /\ count is_can_duty (snd r) = count is_toggle_log (snd r).
Proof.
  unfold FLAP_OPEN, FLAP_CLOSE. cbv zeta.
  revert s. induction acts as [| a more IH]; intros s Hd.
  - cbn. destruct Hd as [-> | ->]; auto.
  - rewrite run_cons. cbn [fst snd].
    destruct (perform_parity a s Hd) as (Hd1 & Hpar & Hcnt).
    destruct (IH _ Hd1) as [IHpar IHcnt].
    rewrite !count_app, IHpar, IHcnt, Hcnt, Hpar. split; [| reflexivity].
    rewrite Nat2Z.inj_add, Zplus_mod_idemp_l. f_equal. lia.
Qed.

Lemma direction_parity_of_toggles_witness :
  let r := run (repeat (Iterate flap_held) 22 ++ [TerminalFlap; Iterate released])
               (app_custom_start boot) in
  count is_toggle_log (snd r) = 3%nat
  /\ flap_direction (fst r) = (0 + 3) mod 2.
Proof.
  cbv zeta. split; [reflexivity |].
  apply (direction_parity_of_toggles
           (repeat (Iterate flap_held) 22 ++ [TerminalFlap; Iterate released])
           (app_custom_start boot)).
  left. reflexivity.
Defined.

Lemma perform_addresses_peer_99 (a : action) (s : state) :
  forallb addresses_peer_99 (snd (perform a s)) = true.
Proof.
  destruct a as [i | |]; cbn [perform snd]; auto.
  destruct (is_running s); cbn [snd]; auto.
  destruct (stop_now s) eqn:Hstop.
  - rewrite loop_body_stop by exact Hstop. reflexivity.
  - rewrite loop_body_explicit by exact Hstop. cbv zeta. cbn [trace_of snd].
    destruct (flap_condition (sampled i s));
      destruct (5 <? rxpin_hold_cnt (sampled i s));
      destruct (5 <? pio_hold_cnt (sampled i s));
      match goal with
      | |- context [if ?c then [mc_interface_set_duty 0] else []] => destruct c
      end; reflexivity.
Qed.

(** X11.  Every CAN call the application ever makes (duty, current or brake
    current) is addressed to controller 99. *)
Theorem can_calls_address_peer_99 (acts : list action) (s : state) :
  forallb addresses_peer_99 (snd (run acts s)) = true.
Proof.
  revert s. induction acts as [| a more IH]; intros s; [reflexivity |].
  rewrite run_cons. cbn [snd].
  rewrite forallb_app, perform_addresses_peer_99, IH. reflexivity.
Qed.

(** ** Terminal commands are not queued *)

Lemma run_app (acts1 acts2 : list action) (s : state) :
  run (acts1 ++ acts2) s
  = (fst (run acts2 (fst (run acts1 s))),
     snd (run acts1 s) ++ snd (run acts2 (fst (run acts1 s)))).
Proof.
  revert s. induction acts1 as [| a more IH]; intros s.
  - cbn [app run fst snd]. destruct (run acts2 s). reflexivity.
  - cbn [app]. rewrite !run_cons, IH. cbn [fst snd].
    rewrite app_assoc. reflexivity.
Qed.

Lemma run_terminal_flaps (n : nat) (s : state) :
  run (repeat TerminalFlap (S n)) s = (flap s, []).
Proof.
  induction n as [| n IH].
  - reflexivity.
  - change (repeat TerminalFlap (S (S n)))
      with (TerminalFlap :: repeat TerminalFlap (S n)).
    rewrite run_cons. cbn [perform fst snd app].
    replace (run (repeat TerminalFlap (S n)) (flap s))
      with (run (repeat TerminalFlap (S n)) s).
    + rewrite IH. reflexivity.
    + clear IH. change (repeat TerminalFlap (S n))
        with (TerminalFlap :: repeat TerminalFlap n).
      rewrite !run_cons. cbn [perform fst snd]. reflexivity.
Qed.

(** X12.  Terminal [flap] commands are coalesced, not queued: any number of them
    (one or more) arriving before the thread's next iteration has the
    effect of one, and that iteration toggles once and clears the flag. *)
Theorem terminal_commands_coalesce (n : nat) (i : inputs) (s : state) :
  is_running s = true ->
  stop_now s = false ->
  let r := run (repeat TerminalFlap (S n) ++ [Iterate i]) s in
  r = run [TerminalFlap; Iterate i] s
  /\ count is_toggle_log (snd r) = 1%nat
  /\ flap_direction (fst r) = toggled (flap_direction s)
  /\ cmd_flap_trigger (fst r) = false.
Proof.
  intros Hrun Hstop. cbv zeta.
  assert (E : run (repeat TerminalFlap (S n) ++ [Iterate i]) s
              = run [TerminalFlap; Iterate i] s).
  { rewrite run_app, run_terminal_flaps. rewrite (run_cons TerminalFlap).
    reflexivity. }
  rewrite E. split; [reflexivity |].
  rewrite !run_cons. cbn [perform fst snd run app].
  assert (Hr : is_running (flap s) = true) by exact Hrun.
  rewrite Hr. cbn [fst snd]. rewrite app_nil_r.
  assert (Hs : stop_now (flap s) = false) by exact Hstop.
  assert (Hfire : flap_fires i (flap s) = true).
  { unfold flap_fires, flap_condition. rewrite sampled_trigger.
    apply orb_true_r. }
  destruct (firing_iteration i (flap s) Hs Hfire) as (Hst & _ & Hlog).
  unfold count. rewrite Hlog, Hst. repeat split; reflexivity.
Qed.

Lemma terminal_commands_coalesce_witness :
  count is_toggle_log
    (snd (run (repeat TerminalFlap 4 ++ [Iterate released])
            (app_custom_start boot)))
  = 1%nat.
Proof.
  apply (terminal_commands_coalesce 3 released (app_custom_start boot));
    reflexivity.
Defined.

(** ** The local motor *)

(** X13.  The thread commands the local motor at most once per iteration: with
    the drive duty when the iteration toggles; with duty 0 when it does not
    toggle and the countdown it started with was 10 or less (so also on
    every idle iteration, the countdown being 0); and not at all while a
    drive is in progress. *)
Theorem motor_duty_per_iteration (i : inputs) (s : state) :
  stop_now s = false ->
  flap_count_ms s <= 8000 ->
  let r := loop_body i s in
  filter is_motor_duty (trace_of r)
  = if flap_fires i s then
      [mc_interface_set_duty
         (utils_map (inject_Z (flap_direction (state_of r))) 0 1
            (- l_max_duty i) (l_max_duty i))]
    else if flap_count_ms s <=? 10 then [mc_interface_set_duty 0]
    else [].
Proof.
  intros Hstop Hms. cbv zeta. destruct (flap_fires i s) eqn:Hfire.
  - destruct (firing_iteration i s Hstop Hfire) as (Hst & Hduty & _).
    rewrite filter_motor_duty, Hduty, Hst. reflexivity.
  - destruct (quiet_iteration i s Hstop Hfire) as (_ & _ & _ & _ & _ & _ & Hm).
    rewrite Hm. unfold counted_down.
    destruct (Z.ltb_spec 0 (flap_count_ms s)).
    + rewrite wrap_int_id by (unfold INT_MIN, INT_MAX; lia).
      destruct (Z.leb_spec (flap_count_ms s - 10) 0);
        destruct (Z.leb_spec (flap_count_ms s) 10); reflexivity || lia.
    + destruct (Z.leb_spec (flap_count_ms s) 0);
        destruct (Z.leb_spec (flap_count_ms s) 10); reflexivity || lia.
Qed.

Lemma motor_duty_per_iteration_witness :
  filter is_motor_duty
    (trace_of (loop_body released
       (iterations [flap_held; released] (flap (app_custom_start boot)))))
  = [].
Proof.
  apply (motor_duty_per_iteration released
           (iterations [flap_held; released] (flap (app_custom_start boot))));
    vm_compute; try reflexivity; discriminate.
Defined.
